(** * forex-server: the prediction endpoint and its cache controller

    A shallow embedding of [app.py]: the period alignment of target
    timestamps ([match_date_to_period]) and the [predict] handler with its
    serve-or-recompute decision, its upsert loop and its exception
    handlers.  Storage ([db.service]) and the model pipeline ([prediction])
    are collaborators of the handler; they are modelled at their interface. *)

From Stdlib Require Import ZArith List String Ascii Bool Lia FinFun.
From Stdlib Require Import Floats.SpecFloat.
Import ListNotations.

Open Scope string_scope.
Open Scope Z_scope.

(** ** Naive datetimes

    A Python [datetime] without tzinfo.  The calendar date is kept as its
    proleptic Gregorian ordinal ([date.toordinal()], day 1 = 0001-01-01);
    the time of day as the four fields [replace] can overwrite.  The year
    range check of [datetime] (years 1..9999) is not modelled: ordinals are
    unbounded. *)
Module DateTime.

Record datetime := mkdt {
  ordinal : Z;
  hour : Z;
  minute : Z;
  second : Z;
  microsecond : Z
}.

Definition wf (d : datetime) : Prop :=
  0 <= hour d < 24 /\ 0 <= minute d < 60 /\
  0 <= second d < 60 /\ 0 <= microsecond d < 1000000.

(** [datetime._ymd2ord]: the ordinal of a civil date. *)
Definition is_leap (y : Z) : bool :=
  (y mod 4 =? 0) && (negb (y mod 100 =? 0) || (y mod 400 =? 0)).

Definition days_before_year (y : Z) : Z :=
  let y1 := y - 1 in y1 * 365 + y1 / 4 - y1 / 100 + y1 / 400.

Definition days_in_month (y m : Z) : Z :=
  if m =? 2 then (if is_leap y then 29 else 28)
  else if (m =? 4) || (m =? 6) || (m =? 9) || (m =? 11) then 30
  else 31.

Fixpoint days_before_month_aux (y : Z) (n : nat) : Z :=
  match n with
  | O => 0
  | S n' => days_before_month_aux y n' + days_in_month y (Z.of_nat n)
  end.

Definition days_before_month (y m : Z) : Z :=
  days_before_month_aux y (Z.to_nat (m - 1)).

Definition ymd2ord (y m d : Z) : Z :=
  days_before_year y + days_before_month y m + d.

(** [datetime(y, m, d, hh, mm, ss, us)]. *)
Definition make (y m d hh mm ss us : Z) : datetime :=
  mkdt (ymd2ord y m d) hh mm ss us.

(** [d.replace(hour=0, minute=0, second=0, microsecond=0)]. *)
Definition replace_hmsu (d : datetime) (hh mm ss us : Z) : datetime :=
  mkdt (ordinal d) hh mm ss us.

(** [d.replace(minute=0, second=0, microsecond=0)]. *)
Definition replace_msu (d : datetime) (mm ss us : Z) : datetime :=
  mkdt (ordinal d) (hour d) mm ss us.

(** Durations in microseconds, as [timedelta] normalises them. *)
Definition us_per_second : Z := 1000000.
Definition us_per_minute : Z := 60 * us_per_second.
Definition us_per_hour : Z := 60 * us_per_minute.
Definition us_per_day : Z := 24 * us_per_hour.

(** [pd.DateOffset(days=n)] and [pd.DateOffset(hours=n)]. *)
Definition DateOffset_days (n : Z) : Z := n * us_per_day.
Definition DateOffset_hours (n : Z) : Z := n * us_per_hour.

(** [timedelta(d.toordinal(), hours=.., minutes=.., seconds=..,
    microseconds=..)], the first step of [datetime.__add__]. *)
Definition to_micros (d : datetime) : Z :=
  ordinal d * us_per_day + hour d * us_per_hour + minute d * us_per_minute
  + second d * us_per_second + microsecond d.

(** The [divmod] chain that ends [datetime.__add__]. *)
Definition of_micros (t : Z) : datetime :=
  let days := t / us_per_day in
  let rem := t mod us_per_day in
  let secs := rem / us_per_second in
  mkdt days (secs / 3600) ((secs mod 3600) / 60) ((secs mod 3600) mod 60)
       (rem mod us_per_second).

(** [d + offset]. *)
Definition add (d : datetime) (delta : Z) : datetime :=
  of_micros (to_micros d + delta).

(** Comparison of naive datetimes: field by field, most significant first. *)
Definition lex (c : comparison) (k : comparison) : comparison :=
  match c with Eq => k | _ => c end.

Definition compare (a b : datetime) : comparison :=
  lex (ordinal a ?= ordinal b)
  (lex (hour a ?= hour b)
  (lex (minute a ?= minute b)
  (lex (second a ?= second b)
       (microsecond a ?= microsecond b)))).

Definition eqb (a b : datetime) : bool :=
  match compare a b with Eq => true | _ => false end.

Definition leb (a b : datetime) : bool :=
  match compare a b with Gt => false | _ => true end.

Definition ltb (a b : datetime) : bool :=
  match compare a b with Lt => true | _ => false end.

End DateTime.

Import DateTime.

(** ** [match_date_to_period]

    The source reads the clock itself ([datetime.utcnow()]); here the
    reading is the first argument. *)
Definition match_date_to_period (now : datetime) (period : string)
    (offset : Z) : datetime :=
  if (period =? "d1")%string then
    add (replace_hmsu now 0 0 0 0) (DateOffset_days (offset + 1))
  else if (period =? "h1")%string then
    add (replace_msu now 0 0 0) (DateOffset_hours offset)
  else now.

(** ** Floats

    Python floats are IEEE 754 doubles; the handler only stores them and
    compares them with [==], so they are kept as specification floats and
    compared with the IEEE equality (NaN differs from itself, the two zeros
    are equal). *)
Definition float : Type := spec_float.
Definition float_eqb (x y : float) : bool := SFeqb x y.
Definition is_nan (x : float) : bool :=
  match x with S754_nan => true | _ => false end.

(** ** Identifiers

    [str.upper] and [str.lower] on identifiers written in ASCII: the
    letters a-z and A-Z are mapped, every other character is kept. *)
Definition is_lower (c : ascii) : bool :=
  let n := N_of_ascii c in ((97 <=? n) && (n <=? 122))%N.

Definition is_upper (c : ascii) : bool :=
  let n := N_of_ascii c in ((65 <=? n) && (n <=? 90))%N.

Definition upper_ascii (c : ascii) : ascii :=
  if is_lower c then ascii_of_N (N_of_ascii c - 32) else c.

Definition lower_ascii (c : ascii) : ascii :=
  if is_upper c then ascii_of_N (N_of_ascii c + 32) else c.

Fixpoint upper (s : string) : string :=
  match s with
  | EmptyString => EmptyString
  | String c s' => String (upper_ascii c) (upper s')
  end.

Fixpoint lower (s : string) : string :=
  match s with
  | EmptyString => EmptyString
  | String c s' => String (lower_ascii c) (lower s')
  end.

(** Two characters that are the same letter, whatever their case. *)
Definition same_letter (a b : ascii) : bool :=
  Ascii.eqb a b
  || (is_lower a && Ascii.eqb b (upper_ascii a))
  || (is_lower b && Ascii.eqb a (upper_ascii b)).

(** Two identifiers that differ only in the case of their letters. *)
Fixpoint differ_only_in_case (s t : string) : bool :=
  match s, t with
  | EmptyString, EmptyString => true
  | String a s', String b t' => same_letter a b && differ_only_in_case s' t'
  | _, _ => false
  end.

(** ** Request and response bodies *)
Record OHLCData := mkOHLC {
  Open : float;
  High : float;
  Low : float;
  Close : float;
  Volume : Z
}.

Record PredictionRequest := mkRequest {
  data : list OHLCData;
  sentimentScore : option float
}.

(** One entry [{"value": .., "time": ..}] of a returned series. *)
Record Point := mkPoint {
  pt_value : float;
  pt_time : datetime
}.

Record Response := mkResponse {
  LSTM_predictions : list Point;
  LSTM_sentiment_predictions : list Point
}.

(** ** Storage

    The tables of [db.models] and the queries of [db.service]. *)
Module Storage.

Record CurrencyPair := mkPair { pair_id : Z; pair_name : string }.
Record Period := mkPeriod { period_id : Z; period_name : string }.
Record PredictionModel := mkModel { model_id : Z; model_name : string }.

Record Prediction := mkPrediction {
  p_pair : Z;
  p_period : Z;
  p_model : Z;
  value : float;
  last_live_value : float;
  date : datetime
}.

Record DB := mkDB {
  currency_pairs : list CurrencyPair;
  periods : list Period;
  prediction_models : list PredictionModel;
  predictions : list Prediction
}.

Definition with_predictions (db : DB) (rows : list Prediction) : DB :=
  mkDB (currency_pairs db) (periods db) (prediction_models db) rows.

(** Modelled from the spec: [service.get_currency_pair], the spec's
    [getCurrencyPair(name)]: the pair stored under that name, if any. *)
Definition get_currency_pair (db : DB) (name : string) : option CurrencyPair :=
  find (fun c => String.eqb (pair_name c) name) (currency_pairs db).

(** Modelled from the spec: [service.get_period], the spec's
    [getPeriod(name)]. *)
Definition get_period (db : DB) (name : string) : option Period :=
  find (fun p => String.eqb (period_name p) name) (periods db).

(** Modelled from the spec: [service.get_prediction_model], the spec's
    [getModel(name)]. *)
Definition get_prediction_model (db : DB) (name : string)
    : option PredictionModel :=
  find (fun m => String.eqb (model_name m) name) (prediction_models db).

(** The rows of one (pair, period, model) triple. *)
Definition of_triple (cp pe mo : Z) (r : Prediction) : bool :=
  (p_pair r =? cp) && (p_period r =? pe) && (p_model r =? mo).

(** The row of one prediction key. *)
Definition has_key (cp pe mo : Z) (d : datetime) (r : Prediction) : bool :=
  of_triple cp pe mo r && DateTime.eqb (date r) d.

Fixpoint insert_by_date (r : Prediction) (l : list Prediction)
    : list Prediction :=
  match l with
  | [] => [r]
  | x :: l' =>
      if DateTime.leb (date r) (date x) then r :: x :: l'
      else x :: insert_by_date r l'
  end.

Fixpoint sort_by_date (l : list Prediction) : list Prediction :=
  match l with
  | [] => []
  | x :: l' => insert_by_date x (sort_by_date l')
  end.

(** Modelled from the spec: [service.get_n_future_predictions], the spec's
    [getPredictionsInRange(pairId, periodId, modelId, fromTimestamp, count)]:
    the first [count] rows of the triple dated [fromTimestamp] or later,
    earliest first. *)
Definition get_n_future_predictions (db : DB) (cp pe mo : Z)
    (from : datetime) (n : nat) : list Prediction :=
  firstn n (sort_by_date
    (filter (fun r => of_triple cp pe mo r && DateTime.leb from (date r))
            (predictions db))).

(** Modelled from the spec: [service.get_prediction_by_date], the spec's
    [getPredictionAt(pairId, periodId, modelId, timestamp)]. *)
Definition get_prediction_by_date (db : DB) (cp pe mo : Z) (d : datetime)
    : option Prediction :=
  find (has_key cp pe mo d) (predictions db).

Fixpoint update_first (f : Prediction -> bool) (g : Prediction -> Prediction)
    (l : list Prediction) : list Prediction :=
  match l with
  | [] => []
  | x :: l' => if f x then g x :: l' else x :: update_first f g l'
  end.

(** Modelled from the spec: [service.update_prediction], the update half of
    the spec's [upsertPrediction(key, value, anchor)]: the stored row
    [existing] gets the new value and the new anchor, its key is kept. *)
Definition update_prediction (db : DB) (existing : Prediction)
    (v last : float) : DB :=
  with_predictions db
    (update_first
       (has_key (p_pair existing) (p_period existing) (p_model existing)
                (date existing))
       (fun r => mkPrediction (p_pair r) (p_period r) (p_model r) v last
                              (date r))
       (predictions db)).

(** Modelled from the spec: [service.create_prediction], the insert half of
    the spec's [upsertPrediction(key, value, anchor)]. *)
Definition create_prediction (db : DB) (cp pe mo : Z) (v last : float)
    (d : datetime) : DB :=
  with_predictions db
    (predictions db ++ [mkPrediction cp pe mo v last d])%list.

(** Modelled from the spec: [service.get_all_predictions]: every stored row
    of the triple, in storage order. *)
Definition get_all_predictions (db : DB) (cp pe mo : Z) : list Prediction :=
  filter (of_triple cp pe mo) (predictions db).

End Storage.

Import Storage.

(** ** Exceptions, effects and the handler's monad

    An [HTTPException] is kept by its status code, without its detail
    text; the two [print] calls of the storing loop are left out. *)
Inductive exn :=
| FileNotFoundError
| HTTPException (status_code : Z)
| IndexError
| AttributeError
| TypeError
| PipelineError.

(** What the model pipeline is asked to do, in order. *)
Inductive event :=
| LoadModelAndScaler (currency_pair period : string)
| GetMultiplePredictions (sentiment_score : option float).

(** The world a request runs in: the database, the number of clock
    readings taken so far and the calls made to the model pipeline. *)
Record world := mkWorld {
  db : DB;
  ticks : nat;
  calls : list event
}.

Definition M (A : Type) : Type := world -> (exn + A) * world.

Definition ret {A} (a : A) : M A := fun w => (inr a, w).

Definition raise {A} (e : exn) : M A := fun w => (inl e, w).

Definition bind {A B} (c : M A) (k : A -> M B) : M B :=
  fun w =>
    match c w with
    | (inl e, w') => (inl e, w')
    | (inr a, w') => k a w'
    end.

Notation "x <- c ;; k" := (bind c (fun x => k))
  (at level 61, c at next level, right associativity).
Notation "c ;;; k" := (bind c (fun _ => k))
  (at level 61, right associativity).

Definition get_db : M DB := fun w => (inr (db w), w).

Definition put_db (d : DB) : M unit :=
  fun w => (inr tt, mkWorld d (ticks w) (calls w)).

Definition record (e : event) : M unit :=
  fun w => (inr tt, mkWorld (db w) (ticks w) (calls w ++ [e])%list).

(** [x.id] on a value that may be [None]. *)
Definition attr {A B} (x : option A) (f : A -> B) : M B :=
  match x with
  | Some a => ret (f a)
  | None => raise AttributeError
  end.

(** [xs[i]]. *)
Definition index {A} (xs : list A) (i : nat) : M A :=
  match nth_error xs i with
  | Some a => ret a
  | None => raise IndexError
  end.

(** [for x in xs: body(x)]. *)
Fixpoint for_each {A} (xs : list A) (body : A -> M unit) : M unit :=
  match xs with
  | [] => ret tt
  | x :: xs' => body x ;;; for_each xs' body
  end.

(** The collaborators outside the handler: the clock and the model
    pipeline of [prediction]. *)
Record Env := mkEnv {
  Artifact : Type;
  Sequences : Type;
  (** the successive readings of [datetime.utcnow()] *)
  clock : nat -> datetime;
  (** Modelled from the spec: [load_model_and_scaler], the spec's
      [loadModelAndScaler(pairName, periodName) -> (model, scaler)], which
      fails with [ArtifactNotFound] (here [None], a [FileNotFoundError])
      when no trained artifact exists for the pair and period. *)
  load_model_and_scaler : string -> string -> option Artifact;
  (** Modelled from the spec: the indicator engine, the drop of undefined
      rows and [preprocess_data]; it fails when too little history is left. *)
  preprocess : list OHLCData -> Artifact -> exn + Sequences;
  (** Modelled from the spec: [get_multiple_predictions], the multi-step
      rollout, plain or with a sentiment score. *)
  get_multiple_predictions : Sequences -> Artifact -> option float -> list float
}.

(** ** The [predict] handler *)
Section Handler.

Variable E : Env.

(** [datetime.utcnow()]: each call takes the next reading of the clock. *)
Definition utcnow : M datetime :=
  fun w => (inr (clock E (ticks w)), mkWorld (db w) (S (ticks w)) (calls w)).

(** [match_date_to_period(period, offset)] as the handler calls it: the
    clock is read anew on every call. *)
Definition match_date_to_period_io (period : string) (offset : Z)
    : M datetime :=
  now <- utcnow ;; ret (match_date_to_period now period offset).

(** [df.iloc[-1]['Close']]. *)
Definition last_close (rows : list OHLCData) : M float :=
  match rev rows with
  | r :: _ => ret (Close r)
  | [] => raise IndexError
  end.

(** The two branches the handler takes for one prediction of one model:
    update the stored row of the key when there is one, create it when
    there is none. *)
Definition upsert_row (d0 : DB) (cp pe mo : Z) (v last : float)
    (d : datetime) : DB :=
  match get_prediction_by_date d0 cp pe mo d with
  | Some existing_prediction =>
      update_prediction d0 existing_prediction v last
  | None => create_prediction d0 cp pe mo v last d
  end.

Definition upsert (cp pe mo : Z) (v last : float) (d : datetime) : M unit :=
  d0 <- get_db ;; put_db (upsert_row d0 cp pe mo v last d).

(** The freshness test of the cached predictions:
    [len(existing) >= n and existing[0].last_live_value == last]. *)
Definition cache_is_fresh (existing : list Prediction) (n : nat)
    (last_data_value : float) : bool :=
  (n <=? List.length existing)%nat
  && match existing with
     | r :: _ => float_eqb (last_live_value r) last_data_value
     | [] => false
     end.

(** One turn of the storing loop, for the prediction of index [i]. *)
Definition store_step (period : string) (cp pe : Z)
    (LSTM_model LSTM_sentiment_model : option PredictionModel)
    (predictions predictions_with_sentiment : list float)
    (last_data_value : float) (i : nat) : M unit :=
  prediction_date <- match_date_to_period_io period (Z.of_nat i) ;;
  LSTM_prediction <- index predictions i ;;
  lstm <- attr LSTM_model model_id ;;
  upsert cp pe lstm LSTM_prediction last_data_value prediction_date ;;;
  LSTM_sentiment_prediction <- index predictions_with_sentiment i ;;
  sent <- attr LSTM_sentiment_model model_id ;;
  upsert cp pe sent LSTM_sentiment_prediction last_data_value prediction_date.

(** The recompute branch: load the artifact, build the sequences, roll the
    model out (a second time when a sentiment score came with the request)
    and store both series. *)
Definition recompute (currency_pair period : string) (rows : list OHLCData)
    (sentiment_score : option float) (cp pe : Z)
    (LSTM_model LSTM_sentiment_model : option PredictionModel)
    (last_data_value : float) (num_of_predictions : nat) : M unit :=
  record (LoadModelAndScaler currency_pair period) ;;;
  match load_model_and_scaler E currency_pair period with
  | None => raise FileNotFoundError
  | Some artifact =>
      match preprocess E rows artifact with
      | inl e => raise e
      | inr sequences =>
          record (GetMultiplePredictions None) ;;;
          let predictions :=
            get_multiple_predictions E sequences artifact None in
          predictions_with_sentiment <-
            match sentiment_score with
            | None => ret predictions
            | Some s =>
                record (GetMultiplePredictions (Some s)) ;;;
                ret (get_multiple_predictions E sequences artifact (Some s))
            end ;;
          for_each (seq 0 num_of_predictions)
            (store_step period cp pe LSTM_model LSTM_sentiment_model
               predictions predictions_with_sentiment last_data_value)
      end
  end.

Definition to_point (pred : Prediction) : Point :=
  mkPoint (value pred) (date pred).

(** A stored series of the triple, as the response lists it. *)
Definition series (d1 : DB) (cp pe mo : Z) : list Point :=
  map to_point (get_all_predictions d1 cp pe mo).

(** The end of the handler: both stored series of the triple. *)
Definition respond (cp pe : Z)
    (LSTM_model LSTM_sentiment_model : option PredictionModel)
    : M Response :=
  d1 <- get_db ;;
  lstm <- attr LSTM_model model_id ;;
  let LSTM_predictions := series d1 cp pe lstm in
  sent <- attr LSTM_sentiment_model model_id ;;
  let LSTM_sentiment_predictions := series d1 cp pe sent in
  ret (mkResponse LSTM_predictions LSTM_sentiment_predictions).

(** The body of the [try] block. *)
Definition predict_body (currency_pair period : string)
    (request : PredictionRequest) : M Response :=
  let num_of_predictions := 5%nat in
  let currency_pair := upper currency_pair in
  d0 <- get_db ;;
  match get_currency_pair d0 currency_pair with
  | None => raise (HTTPException 400)
  | Some currency_pair_record =>
      let period := lower period in
      match get_period d0 period with
      | None => raise (HTTPException 400)
      | Some period_record =>
          let LSTM_model := get_prediction_model d0 "LSTM" in
          let LSTM_sentiment_model :=
            get_prediction_model d0 "LSTM_Sentiment" in
          last_data_value <- last_close (data request) ;;
          let sentiment_score := sentimentScore request in
          matched_date <- match_date_to_period_io period 0 ;;
          lstm <- attr LSTM_model model_id ;;
          let existing_LSTM_predictions :=
            get_n_future_predictions d0 (pair_id currency_pair_record)
              (period_id period_record) lstm matched_date
              num_of_predictions in
          (if negb (cache_is_fresh existing_LSTM_predictions
                      num_of_predictions last_data_value)
           then recompute currency_pair period (data request)
                  sentiment_score (pair_id currency_pair_record)
                  (period_id period_record) LSTM_model LSTM_sentiment_model
                  last_data_value num_of_predictions
           else ret tt) ;;;
          respond (pair_id currency_pair_record) (period_id period_record)
            LSTM_model LSTM_sentiment_model
      end
  end.

(** The two [except] clauses: [FileNotFoundError] becomes a 404, every
    other exception, an [HTTPException] raised in the body included, a
    500. *)
Definition except_clauses {A} (c : M A) : M A :=
  fun w =>
    match c w with
    | (inl FileNotFoundError, w') => (inl (HTTPException 404), w')
    | (inl _, w') => (inl (HTTPException 500), w')
    | (inr r, w') => (inr r, w')
    end.

Definition predict (currency_pair period : string)
    (request : PredictionRequest) : M Response :=
  except_clauses (predict_body currency_pair period request).

(** *** What a successful storing loop writes

    The writes of the loop, in the order it makes them: for the index [i],
    read at the clock tick [tick], the plain prediction and then the
    sentiment one, both under the date computed in that turn. *)
Record write := mkWrite {
  w_model : Z;
  w_value : float;
  w_date : datetime
}.

Fixpoint planned_writes (period : string) (lstm sent : Z)
    (predictions predictions_with_sentiment : list float)
    (i tick n : nat) : list write :=
  match n with
  | O => []
  | S n' =>
      let d := match_date_to_period (clock E tick) period (Z.of_nat i) in
      mkWrite lstm (nth i predictions S754_nan) d
      :: mkWrite sent (nth i predictions_with_sentiment S754_nan) d
      :: planned_writes period lstm sent predictions
           predictions_with_sentiment (S i) (S tick) n'
  end.

End Handler.

Definition apply_writes (cp pe : Z) (last : float) (ws : list write)
    (d0 : DB) : DB :=
  fold_left
    (fun d1 x => upsert_row d1 cp pe (w_model x) (w_value x) last (w_date x))
    ws d0.

(** A prediction key holds a row computed from the anchor [last]. *)
Definition stored_with_anchor (d0 : DB) (cp pe mo : Z) (d : datetime)
    (last : float) : Prop :=
  exists r, get_prediction_by_date d0 cp pe mo d = Some r
            /\ last_live_value r = last.

(** The clock stays in one bucket of the period over [n] readings from the
    tick [t]. *)
Definition same_bucket (E : Env) (period : string) (t n : nat) : Prop :=
  forall j, (j <= n)%nat ->
    match_date_to_period (clock E (t + j)) period 0
    = match_date_to_period (clock E t) period 0.

(** The writes of a loop whose clock stays in the bucket of [now]: turn
    [k] writes both variants at the target of offset [k]. *)
Definition aligned_writes (now : datetime) (period : string) (lstm sent : Z)
    (predictions predictions_with_sentiment : list float) (i n : nat)
    : list write :=
  flat_map
    (fun k =>
       [mkWrite lstm (nth k predictions S754_nan)
          (match_date_to_period now period (Z.of_nat k));
        mkWrite sent (nth k predictions_with_sentiment S754_nan)
          (match_date_to_period now period (Z.of_nat k))])
    (seq i n).

Definition key_of (x : write) : Z * datetime := (w_model x, w_date x).


(** The periods [match_date_to_period] aligns. *)
Definition aligned (period : string) : Prop := period = "d1" \/ period = "h1".

(** The world after the one clock reading of the cache check. *)
Definition after_check (w : world) : world :=
  mkWorld (db w) (S (ticks w)) (calls w).

(** ** Proof plumbing

    [run] carries the monadic plumbing of a goal up to the next storage
    query or collaborator call; [run_in] does so in a hypothesis. *)
Ltac run :=
  cbv beta iota zeta delta [bind ret raise record get_db put_db attr upsert
    utcnow match_date_to_period_io];
  cbn [db ticks calls fst snd].

Ltac run_in H :=
  cbv beta iota zeta delta [bind ret raise record get_db put_db attr upsert
    utcnow match_date_to_period_io] in H;
  cbn [db ticks calls fst snd] in H.

(** ** A small deployment

    One pair with artifacts for three periods, a second pair without any,
    and a clock stopped at 2024-01-01T10:17:00. *)
Module Sample.

Definition fl (m : positive) (e : Z) : float := S754_finite false m e.

Definition now_1017 : datetime := make 2024 1 1 10 17 0 0.

Definition plain_rollout : list float :=
  [fl 5 (-2); fl 11 (-3); fl 3 (-1); fl 13 (-3); fl 7 (-2)].

Definition sentiment_rollout : list float :=
  [fl 21 (-4); fl 23 (-4); fl 25 (-4); fl 27 (-4); fl 29 (-4)].

Definition env : Env :=
  mkEnv unit unit
    (fun _ => now_1017)
    (fun pair _ => if String.eqb pair "EURUSD" then Some tt else None)
    (fun rows _ => match rows with [] => inl PipelineError | _ => inr tt end)
    (fun _ _ s => match s with None => plain_rollout
                          | Some _ => sentiment_rollout end).

Definition empty_db : DB :=
  mkDB [mkPair 1 "EURUSD"; mkPair 2 "GBPUSD"]
       [mkPeriod 1 "d1"; mkPeriod 2 "h1"; mkPeriod 3 "m5"]
       [mkModel 1 "LSTM"; mkModel 2 "LSTM_Sentiment"]
       [].

Definition start : world := mkWorld empty_db 0 [].

Definition bar (c : float) : OHLCData := mkOHLC c c c c 100.

Definition request : PredictionRequest :=
  mkRequest [bar (fl 9 (-3)); bar (fl 5 (-2))] None.


Definition request_moved : PredictionRequest :=
  mkRequest [bar (fl 9 (-3)); bar (fl 5 (-2)); bar (fl 3 (-1))] None.

(** The world after a first request for EURUSD, h1. *)
Definition after_first : world :=
  snd (predict env "eurusd" "h1" request start).

(** The same deployment under a clock that advances by one microsecond at
    every reading. *)
Definition ticking_env : Env :=
  mkEnv unit unit
    (fun n => mkdt (ymd2ord 2024 1 1) 10 17 0 (Z.of_nat n))
    (load_model_and_scaler env) (preprocess env)
    (get_multiple_predictions env).

(** The same deployment under a clock that passes 11:00:00 after its
    third reading. *)
Definition crossing_env : Env :=
  mkEnv unit unit
    (fun n => if (n <? 3)%nat then mkdt (ymd2ord 2024 1 1) 10 59 59 999999
              else mkdt (ymd2ord 2024 1 1) 11 0 0 0)
    (load_model_and_scaler env) (preprocess env)
    (get_multiple_predictions env).

(** A request whose last Close is NaN. *)
Definition request_nan : PredictionRequest :=
  mkRequest [bar (fl 9 (-3)); bar S754_nan] None.


End Sample.

(** ** The symbol endpoints

    [get_currency_pairs] and [add_currency_pair].  The payload of
    [add_currency_pair] is a JSON object; it is taken here with a "symbol"
    that is a string, or missing or null, and with "periods" that is
    missing, a list of strings, or a value a [for] loop cannot run over
    (null, a number, a boolean). *)
Module Symbols.

(** [payload.get("periods", [])]: the default when the key is missing, the
    value itself when it is there. *)
Inductive periods_value :=
| periods_missing
| periods_not_iterable
| periods_list (l : list string).

Record SymbolPayload := mkPayload {
  symbol : option string;
  periods : periods_value
}.

(** The names the loop over [periods] goes through. *)
Definition requested_periods (v : periods_value) : list string :=
  match v with
  | periods_list l => l
  | _ => []
  end.

(** The stored pairs together with the periods attached to them: a link
    [(pair id, period id)] for every entry of a pair's [periods]. *)
Record registry := mkRegistry {
  reg_db : DB;
  pair_periods : list (Z * Z)
}.

(** Modelled from the spec: [service.get_all_currency_pairs]: every stored
    currency pair, in storage order. *)
Definition get_all_currency_pairs (d : DB) : list CurrencyPair :=
  currency_pairs d.

(** Modelled from the spec: the id a new row of [models.CurrencyPair] gets
    when it is committed and refreshed: one more than the largest stored
    id. *)
Definition next_pair_id (d : DB) : Z :=
  1 + fold_right Z.max 0 (map pair_id (currency_pairs d)).

(** [db.add(new_pair); db.commit(); db.refresh(new_pair)]. *)
Definition commit_pair (d : DB) (name : string) : CurrencyPair * DB :=
  let new_pair := mkPair (next_pair_id d) name in
  (new_pair,
   mkDB (currency_pairs d ++ [new_pair])%list (Storage.periods d)
        (prediction_models d) (predictions d)).

(** The loop over the requested periods: a stored period is appended to
    the periods of the new pair, an unknown one is passed over. *)
Fixpoint attach_periods (d : DB) (new_pair : CurrencyPair)
    (requested : list string) (links : list (Z * Z)) : list (Z * Z) :=
  match requested with
  | [] => links
  | period :: rest =>
      match get_period d period with
      | Some period_record =>
          attach_periods d new_pair rest
            (links ++ [(pair_id new_pair, period_id period_record)])%list
      | None => attach_periods d new_pair rest links
      end
  end.

(** The [GET /currency_pairs] handler. *)
Definition get_currency_pairs (r : registry) : exn + list string :=
  inr (map pair_name (get_all_currency_pairs (reg_db r))).

Definition added_message : string := "Currency pair added successfully".

(** The body of the [try] block of [add_currency_pair].  The new pair is
    committed before the loop over the periods starts, so a loop that
    raises leaves the pair stored. *)
Definition add_currency_pair_body (payload : SymbolPayload) (r : registry)
    : (exn + string) * registry :=
  match symbol payload with
  | None => (inl (HTTPException 400), r)
  | Some name =>
      if String.eqb name "" then (inl (HTTPException 400), r)
      else
        match get_currency_pair (reg_db r) name with
        | Some existing_pair => (inl (HTTPException 400), r)
        | None =>
            let (new_pair, d1) := commit_pair (reg_db r) name in
            match periods payload with
            | periods_not_iterable =>
                (inl TypeError, mkRegistry d1 (pair_periods r))
            | requested =>
                (inr added_message,
                 mkRegistry d1
                   (attach_periods d1 new_pair (requested_periods requested)
                      (pair_periods r)))
            end
        end
  end.

(** The [POST /symbol] handler: its one [except] clause turns every
    exception of the body into a 500. *)
Definition add_currency_pair (payload : SymbolPayload) (r : registry)
    : (exn + string) * registry :=
  match add_currency_pair_body payload r with
  | (inl _, r') => (inl (HTTPException 500), r')
  | (inr m, r') => (inr m, r')
  end.

(** The periods attached to a pair, as ids. *)
Definition periods_of (r : registry) (pair : Z) : list Z :=
  map snd (filter (fun l => fst l =? pair) (pair_periods r)).

End Symbols.

(** ** More of the small deployment *)
Module Edge.

(** The deployment of [Sample] with a model that rolls out three values. *)
Definition short_env : Env :=
  mkEnv unit unit
    (clock Sample.env) (load_model_and_scaler Sample.env)
    (preprocess Sample.env)
    (fun _ _ _ => [Sample.fl 5 (-2); Sample.fl 11 (-3); Sample.fl 3 (-1)]).

(** The stored pairs of [Sample], with no period attached yet. *)
Definition registry0 : Symbols.registry :=
  Symbols.mkRegistry Sample.empty_db [].

(** A new symbol written in lower case, with one unknown period among the
    requested ones. *)
Definition payload_usdjpy : Symbols.SymbolPayload :=
  Symbols.mkPayload (Some "usdjpy")
    (Symbols.periods_list ["h1"; "w1"; "d1"]).

Definition payload_stored : Symbols.SymbolPayload :=
  Symbols.mkPayload (Some "EURUSD") Symbols.periods_missing.

(** A new symbol whose "periods" is null. *)
Definition payload_null_periods : Symbols.SymbolPayload :=
  Symbols.mkPayload (Some "audusd") Symbols.periods_not_iterable.



End Edge.

(** The key of a stored prediction. *)
Definition prediction_key (r : Prediction) : Z * Z * Z * datetime :=
  (p_pair r, p_period r, p_model r, date r).

(** ** Facts about datetimes *)

Lemma of_micros_wf (t : Z) : wf (of_micros t).
Proof.
  unfold wf, of_micros, us_per_day, us_per_hour, us_per_minute,
    us_per_second; cbn [hour minute second microsecond].
  assert (H : 0 <= t mod (24 * (60 * (60 * 1000000))) < 24 * (60 * (60 * 1000000)))
    by (apply Z.mod_pos_bound; lia).
  set (r := t mod (24 * (60 * (60 * 1000000)))) in *.
  assert (Hs : 0 <= r / 1000000 < 86400).
  { split; [apply Z.div_pos; lia | apply Z.div_lt_upper_bound; lia]. }
  set (s := r / 1000000) in *.
  repeat split;
    try (apply Z.div_pos; try lia; apply Z.mod_pos_bound; lia);
    try (apply Z.div_lt_upper_bound; try lia);
    try (apply Z.mod_pos_bound; lia);
    try (pose proof (Z.mod_pos_bound s 3600); lia);
    try lia.
Qed.

Lemma to_of_micros (t : Z) : to_micros (of_micros t) = t.
Proof.
  unfold to_micros, of_micros, us_per_day, us_per_hour, us_per_minute,
    us_per_second; cbn [ordinal hour minute second microsecond].
  set (D := 24 * (60 * (60 * 1000000))).
  pose proof (Z.div_mod t D ltac:(subst D; lia)) as Ht.
  set (r := t mod D) in *.
  pose proof (Z.div_mod r 1000000 ltac:(lia)) as Hr.
  set (s := r / 1000000) in *.
  pose proof (Z.div_mod s 3600 ltac:(lia)) as Hs.
  pose proof (Z.div_mod (s mod 3600) 60 ltac:(lia)) as Hm.
  subst D. lia.
Qed.

Lemma of_to_micros (d : datetime) : wf d -> of_micros (to_micros d) = d.
Proof.
  intros (Hh & Hm & Hs & Hu). destruct d as [o h m s u].
  cbn [hour minute second microsecond] in *.
  unfold to_micros, of_micros, us_per_day, us_per_hour, us_per_minute,
    us_per_second; cbn [ordinal hour minute second microsecond].
  set (tod := h * (60 * (60 * 1000000)) + m * (60 * 1000000) + s * 1000000 + u).
  assert (Hq : (o * (24 * (60 * (60 * 1000000))) + h * (60 * (60 * 1000000))
                + m * (60 * 1000000) + s * 1000000 + u) / (24 * (60 * (60 * 1000000))) = o).
  { symmetry. apply (Z.div_unique _ _ o tod); subst tod; lia. }
  assert (Hr : (o * (24 * (60 * (60 * 1000000))) + h * (60 * (60 * 1000000))
                + m * (60 * 1000000) + s * 1000000 + u) mod (24 * (60 * (60 * 1000000))) = tod).
  { symmetry. apply (Z.mod_unique _ _ o tod); subst tod; lia. }
  rewrite Hq, Hr.
  assert (Hsec : tod / 1000000 = h * 3600 + m * 60 + s).
  { symmetry. apply (Z.div_unique _ _ _ u); subst tod; lia. }
  assert (Hus : tod mod 1000000 = u).
  { symmetry. apply (Z.mod_unique _ _ (h * 3600 + m * 60 + s) u); subst tod; lia. }
  rewrite Hsec, Hus.
  assert (H1 : (h * 3600 + m * 60 + s) / 3600 = h).
  { symmetry. apply (Z.div_unique _ _ _ (m * 60 + s)); lia. }
  assert (H2 : (h * 3600 + m * 60 + s) mod 3600 = m * 60 + s).
  { symmetry. apply (Z.mod_unique _ _ h (m * 60 + s)); lia. }
  rewrite H1, H2.
  assert (H3 : (m * 60 + s) / 60 = m).
  { symmetry. apply (Z.div_unique _ _ _ s); lia. }
  assert (H4 : (m * 60 + s) mod 60 = s).
  { symmetry. apply (Z.mod_unique _ _ m s); lia. }
  rewrite H3, H4. reflexivity.
Qed.

Lemma lex_eq (c k : comparison) : lex c k = Eq -> c = Eq /\ k = Eq.
Proof. destruct c; cbn; intros H; try discriminate; auto. Qed.

Lemma compare_eq (a b : datetime) : DateTime.compare a b = Eq -> a = b.
Proof.
  unfold DateTime.compare. intros H.
  apply lex_eq in H as [Ho H]. apply lex_eq in H as [Hh H].
  apply lex_eq in H as [Hm H]. apply lex_eq in H as [Hs Hu].
  apply Z.compare_eq in Ho, Hh, Hm, Hs, Hu.
  destruct a, b; cbn in *; congruence.
Qed.

Lemma compare_refl (a : datetime) : DateTime.compare a a = Eq.
Proof. unfold DateTime.compare. now rewrite !Z.compare_refl. Qed.

Lemma lex_opp (c k : comparison) : CompOpp (lex c k) = lex (CompOpp c) (CompOpp k).
Proof. now destruct c. Qed.

Lemma compare_antisym (a b : datetime) :
  DateTime.compare b a = CompOpp (DateTime.compare a b).
Proof.
  unfold DateTime.compare. rewrite !lex_opp, <- !Z.compare_antisym.
  reflexivity.
Qed.

Lemma eqb_eq (a b : datetime) : DateTime.eqb a b = true <-> a = b.
Proof.
  unfold DateTime.eqb. split.
  - destruct (DateTime.compare a b) eqn:H; try discriminate.
    intros _. now apply compare_eq.
  - intros ->. now rewrite compare_refl.
Qed.

Lemma eqb_refl (a : datetime) : DateTime.eqb a a = true.
Proof. now apply eqb_eq. Qed.

(** On well-formed datetimes the field-wise order is the order of the
    instants. *)
Lemma compare_micros (a b : datetime) :
  wf a -> wf b -> DateTime.compare a b = (to_micros a ?= to_micros b).
Proof.
  intros (Ha1 & Ha2 & Ha3 & Ha4) (Hb1 & Hb2 & Hb3 & Hb4).
  destruct a as [o1 h1 m1 s1 u1], b as [o2 h2 m2 s2 u2].
  cbn [hour minute second microsecond] in *.
  unfold DateTime.compare, to_micros, us_per_day, us_per_hour, us_per_minute,
    us_per_second; cbn [ordinal hour minute second microsecond].
  symmetry.
  destruct (Z.compare_spec o1 o2) as [-> | Ho | Ho]; cbn [lex];
    [ | apply Z.compare_lt_iff; lia | apply Z.compare_gt_iff; lia ].
  destruct (Z.compare_spec h1 h2) as [-> | Hh | Hh]; cbn [lex];
    [ | apply Z.compare_lt_iff; lia | apply Z.compare_gt_iff; lia ].
  destruct (Z.compare_spec m1 m2) as [-> | Hm | Hm]; cbn [lex];
    [ | apply Z.compare_lt_iff; lia | apply Z.compare_gt_iff; lia ].
  destruct (Z.compare_spec s1 s2) as [-> | Hs | Hs]; cbn [lex];
    [ | apply Z.compare_lt_iff; lia | apply Z.compare_gt_iff; lia ].
  destruct (Z.compare_spec u1 u2) as [-> | Hu | Hu];
    [ apply Z.compare_refl | apply Z.compare_lt_iff; lia
    | apply Z.compare_gt_iff; lia ].
Qed.

Lemma leb_micros (a b : datetime) :
  wf a -> wf b -> DateTime.leb a b = (to_micros a <=? to_micros b).
Proof.
  intros Ha Hb. unfold DateTime.leb, Z.leb.
  now rewrite (compare_micros a b Ha Hb).
Qed.

Lemma ltb_micros (a b : datetime) :
  wf a -> wf b -> DateTime.ltb a b = (to_micros a <? to_micros b).
Proof.
  intros Ha Hb. unfold DateTime.ltb, Z.ltb.
  now rewrite (compare_micros a b Ha Hb).
Qed.

(** ** The two aligned periods *)

Lemma match_date_d1 (now : datetime) (k : Z) :
  match_date_to_period now "d1" k = mkdt (ordinal now + (k + 1)) 0 0 0 0.
Proof.
  unfold match_date_to_period; cbn [String.eqb Ascii.eqb Bool.eqb].
  unfold add, replace_hmsu, DateOffset_days.
  rewrite <- (of_to_micros (mkdt (ordinal now + (k + 1)) 0 0 0 0))
    by (unfold wf; cbn; lia).
  f_equal. unfold to_micros; cbn [ordinal hour minute second microsecond].
  unfold us_per_day, us_per_hour, us_per_minute, us_per_second. lia.
Qed.

Lemma match_date_h1_micros (now : datetime) (k : Z) :
  to_micros (match_date_to_period now "h1" k)
  = to_micros (mkdt (ordinal now) (hour now) 0 0 0) + k * us_per_hour.
Proof.
  unfold match_date_to_period; cbn [String.eqb Ascii.eqb Bool.eqb].
  unfold add, replace_msu, DateOffset_hours. now rewrite to_of_micros.
Qed.

Lemma match_date_h1_0 (now : datetime) :
  0 <= hour now < 24 ->
  match_date_to_period now "h1" 0 = mkdt (ordinal now) (hour now) 0 0 0.
Proof.
  intros Hh.
  unfold match_date_to_period; cbn [String.eqb Ascii.eqb Bool.eqb].
  unfold add, replace_msu, DateOffset_hours. rewrite Z.add_0_r.
  apply of_to_micros. unfold wf; cbn. lia.
Qed.

(** C2, as the code has it: for the period 'h1' and every offset k >= 0
    the target timestamp is the start of the hour that contains "now" plus
    k whole hours.  Offset 0 is the start of the current hour, which is not
    after "now"; with now = 2024-01-01T10:17:00 offset 0 yields
    2024-01-01T10:00:00 and offset 1 yields 2024-01-01T11:00:00. *)
Theorem h1_target_is_current_hour_plus_offset (now : datetime) (k : Z) :
  wf now -> 0 <= k ->
  wf (match_date_to_period now "h1" k)
  /\ to_micros (match_date_to_period now "h1" k)
     = to_micros (mkdt (ordinal now) (hour now) 0 0 0) + k * us_per_hour
  /\ match_date_to_period now "h1" 0 = mkdt (ordinal now) (hour now) 0 0 0
  /\ DateTime.leb (match_date_to_period now "h1" 0) now = true
  /\ match_date_to_period Sample.now_1017 "h1" 0 = make 2024 1 1 10 0 0 0
  /\ match_date_to_period Sample.now_1017 "h1" 1 = make 2024 1 1 11 0 0 0.
Proof.
  intros Hwf Hk. destruct Hwf as (Hh & Hm & Hs & Hu).
  split; [ | split; [ | split; [ | split; [ | split ] ] ] ].
  - unfold match_date_to_period; cbn [String.eqb Ascii.eqb Bool.eqb].
    apply of_micros_wf.
  - apply match_date_h1_micros.
  - now apply match_date_h1_0.
  - rewrite match_date_h1_0 by assumption.
    unfold DateTime.leb, DateTime.compare;
      cbn [ordinal hour minute second microsecond].
    rewrite !Z.compare_refl; cbn [lex].
    destruct (Z.compare_spec 0 (minute now)) as [E1 | ? | ?]; cbn [lex];
      try reflexivity; try lia.
    destruct (Z.compare_spec 0 (second now)) as [E2 | ? | ?]; cbn [lex];
      try reflexivity; try lia.
    destruct (Z.compare_spec 0 (microsecond now)) as [E3 | ? | ?];
      try reflexivity; lia.
  - reflexivity.
  - reflexivity.
Qed.

Lemma h1_target_is_current_hour_plus_offset_witness :
  to_micros (match_date_to_period Sample.now_1017 "h1" 3)
  = to_micros (mkdt 738886 10 0 0 0) + 3 * us_per_hour.
Proof.
  apply (h1_target_is_current_hour_plus_offset Sample.now_1017 3).
  - unfold wf; cbn; lia.
  - lia.
Defined.

(** C2 as stated fails: at 2024-01-01T10:17:00 the target of offset 0 for
    'h1' is 10:00:00, which is not after "now" and is not 11:00:00, and the
    target of offset 1 is 11:00:00, not 12:00:00. *)
Lemma h1_target_is_not_next_hour :
  match_date_to_period Sample.now_1017 "h1" 0 <> make 2024 1 1 11 0 0 0
  /\ match_date_to_period Sample.now_1017 "h1" 1 <> make 2024 1 1 12 0 0 0
  /\ DateTime.ltb Sample.now_1017 (match_date_to_period Sample.now_1017 "h1" 0)
     = false.
Proof.
  split; [ | split ]; [ intros H | intros H | ]; try discriminate H.
  reflexivity.
Qed.

(** C3: for the period 'd1' and every offset k >= 0 the target timestamp
    is the start of a day strictly later than "now": the start of the
    current day plus k+1 days, so offset 0 is never the current day. *)
Theorem d1_target_is_a_later_day (now : datetime) (k : Z) :
  0 <= k ->
  match_date_to_period now "d1" k = mkdt (ordinal now + (k + 1)) 0 0 0 0
  /\ DateTime.ltb now (match_date_to_period now "d1" k) = true
  /\ ordinal (match_date_to_period now "d1" 0) <> ordinal now.
Proof.
  intros Hk. rewrite !match_date_d1. split; [ reflexivity | split ].
  - unfold DateTime.ltb, DateTime.compare; cbn [ordinal].
    assert (H : (ordinal now ?= ordinal now + (k + 1)) = Lt)
      by (apply Z.compare_lt_iff; lia).
    now rewrite H.
  - cbn [ordinal]. lia.
Qed.

Lemma d1_target_is_a_later_day_witness :
  match_date_to_period Sample.now_1017 "d1" 2 = make 2024 1 4 0 0 0 0.
Proof.
  destruct (d1_target_is_a_later_day Sample.now_1017 2 ltac:(lia)) as [H _].
  rewrite H. reflexivity.
Defined.

(** ** Storage: reading back what was upserted *)

Lemma has_key_iff (cp pe mo : Z) (d : datetime) (r : Prediction) :
  has_key cp pe mo d r = true
  <-> p_pair r = cp /\ p_period r = pe /\ p_model r = mo /\ date r = d.
Proof.
  unfold has_key, of_triple.
  rewrite !andb_true_iff, !Z.eqb_eq, eqb_eq. tauto.
Qed.

Lemma has_key_row (cp pe mo : Z) (v l : float) (d : datetime) :
  has_key cp pe mo d (mkPrediction cp pe mo v l d) = true.
Proof. apply has_key_iff. cbn. auto. Qed.

Lemma find_update_first_hit (f : Prediction -> bool)
    (g : Prediction -> Prediction) (l : list Prediction) (e : Prediction) :
  find f l = Some e -> (forall x, f x = true -> f (g x) = true) ->
  find f (update_first f g l) = Some (g e).
Proof.
  intros H Hg. induction l as [| x l IH]; cbn in *; [ discriminate | ].
  destruct (f x) eqn:Hx.
  - injection H as <-. cbn. now rewrite (Hg x Hx).
  - cbn. rewrite Hx. now apply IH.
Qed.

Lemma find_update_first_miss (f f' : Prediction -> bool)
    (g : Prediction -> Prediction) (l : list Prediction) :
  (forall x, f x = true -> f' x = false) ->
  (forall x, f' (g x) = f' x) ->
  find f' (update_first f g l) = find f' l.
Proof.
  intros Hd Hg. induction l as [| x l IH]; cbn; [ reflexivity | ].
  destruct (f x) eqn:Hx; cbn.
  - now rewrite Hg, (Hd x Hx).
  - now rewrite IH.
Qed.

Lemma find_app_one (f : Prediction -> bool) (l : list Prediction)
    (x : Prediction) :
  find f (l ++ [x])
  = match find f l with
    | Some r => Some r
    | None => if f x then Some x else None
    end.
Proof.
  induction l as [| y l IH]; cbn; [ reflexivity | ].
  now destruct (f y).
Qed.

(** Reading any key after an upsert: the upserted key yields the row just
    written, every other key what it yielded before. *)
Lemma lookup_upsert (d0 : DB) (cp pe mo : Z) (v l : float) (d : datetime)
    (cp' pe' mo' : Z) (d' : datetime) :
  get_prediction_by_date (upsert_row d0 cp pe mo v l d) cp' pe' mo' d'
  = if has_key cp' pe' mo' d' (mkPrediction cp pe mo v l d)
    then Some (mkPrediction cp pe mo v l d)
    else get_prediction_by_date d0 cp' pe' mo' d'.
Proof.
  unfold upsert_row, get_prediction_by_date.
  destruct (find (has_key cp pe mo d) (predictions d0)) as [e |] eqn:He.
  - pose proof (find_some _ _ He) as [_ Hk].
    apply has_key_iff in Hk as (K1 & K2 & K3 & K4).
    unfold update_prediction; cbn [predictions with_predictions].
    rewrite K1, K2, K3, K4.
    destruct (has_key cp' pe' mo' d' (mkPrediction cp pe mo v l d)) eqn:Hk'.
    + apply has_key_iff in Hk' as (<- & <- & <- & <-).
      cbn [p_pair p_period p_model date].
      rewrite (find_update_first_hit _ _ _ e He).
      * cbn. now rewrite K1, K2, K3, K4.
      * intros x Hx. apply has_key_iff in Hx. apply has_key_iff. cbn. tauto.
    + apply find_update_first_miss.
      * intros x Hx. apply has_key_iff in Hx as (X1 & X2 & X3 & X4).
        destruct (has_key cp' pe' mo' d' x) eqn:Hx'; [ | reflexivity ].
        apply has_key_iff in Hx' as (Y1 & Y2 & Y3 & Y4).
        rewrite <- Hk'. symmetry. apply has_key_iff. cbn. repeat split; congruence.
      * intros x. unfold has_key, of_triple. reflexivity.
  - unfold create_prediction; cbn [predictions with_predictions].
    rewrite find_app_one.
    destruct (find (has_key cp' pe' mo' d') (predictions d0)) as [r |] eqn:Hr.
    + destruct (has_key cp' pe' mo' d' (mkPrediction cp pe mo v l d)) eqn:Hk';
        [ | reflexivity ].
      apply has_key_iff in Hk' as (<- & <- & <- & <-).
      cbn [p_pair p_period p_model date] in Hr. congruence.
    + reflexivity.
Qed.

Lemma lookup_upsert_same (d0 : DB) (cp pe mo : Z) (v l : float)
    (d : datetime) :
  get_prediction_by_date (upsert_row d0 cp pe mo v l d) cp pe mo d
  = Some (mkPrediction cp pe mo v l d).
Proof. now rewrite lookup_upsert, has_key_row. Qed.

Lemma lookup_upsert_other (d0 : DB) (cp pe mo : Z) (v l : float)
    (d : datetime) (mo' : Z) (d' : datetime) :
  (mo, d) <> (mo', d') ->
  get_prediction_by_date (upsert_row d0 cp pe mo v l d) cp pe mo' d'
  = get_prediction_by_date d0 cp pe mo' d'.
Proof.
  intros Hne. rewrite lookup_upsert.
  destruct (has_key cp pe mo' d' (mkPrediction cp pe mo v l d)) eqn:Hk;
    [ | reflexivity ].
  apply has_key_iff in Hk as (_ & _ & K3 & K4). cbn in K3, K4.
  congruence.
Qed.

Lemma anchor_upsert_same (d0 : DB) (cp pe mo : Z) (v l : float)
    (d : datetime) :
  stored_with_anchor (upsert_row d0 cp pe mo v l d) cp pe mo d l.
Proof.
  eexists. split; [ apply lookup_upsert_same | reflexivity ].
Qed.

Lemma anchor_upsert_kept (d0 : DB) (cp pe mo : Z) (v l : float)
    (d : datetime) (mo' : Z) (d' : datetime) :
  stored_with_anchor d0 cp pe mo' d' l ->
  stored_with_anchor (upsert_row d0 cp pe mo v l d) cp pe mo' d' l.
Proof.
  intros (r & Hr & Hl). unfold stored_with_anchor. rewrite lookup_upsert.
  destruct (has_key cp pe mo' d' (mkPrediction cp pe mo v l d)).
  - eexists. split; reflexivity.
  - eauto.
Qed.

Lemma apply_writes_cons (cp pe : Z) (l : float) (x : write)
    (ws : list write) (d0 : DB) :
  apply_writes cp pe l (x :: ws) d0
  = apply_writes cp pe l ws
      (upsert_row d0 cp pe (w_model x) (w_value x) l (w_date x)).
Proof. reflexivity. Qed.

Lemma anchor_apply_writes_kept (cp pe : Z) (l : float) (ws : list write) :
  forall d0 mo d,
    stored_with_anchor d0 cp pe mo d l ->
    stored_with_anchor (apply_writes cp pe l ws d0) cp pe mo d l.
Proof.
  induction ws as [| x ws IH]; intros d0 mo d H; [ exact H | ].
  rewrite apply_writes_cons. apply IH. now apply anchor_upsert_kept.
Qed.

(** Every key the loop wrote carries the anchor of the request. *)
Lemma anchor_apply_writes (cp pe : Z) (l : float) (ws : list write) :
  forall d0 x, In x ws ->
    stored_with_anchor (apply_writes cp pe l ws d0) cp pe
      (w_model x) (w_date x) l.
Proof.
  induction ws as [| y ws IH]; intros d0 x Hin; [ contradiction | ].
  rewrite apply_writes_cons. destruct Hin as [-> | Hin].
  - apply anchor_apply_writes_kept, anchor_upsert_same.
  - now apply IH.
Qed.

(** A key no write names reads as before. *)
Lemma lookup_apply_writes_frame (cp pe : Z) (l : float) (ws : list write) :
  forall d0 mo d,
    ~ In (mo, d) (map key_of ws) ->
    get_prediction_by_date (apply_writes cp pe l ws d0) cp pe mo d
    = get_prediction_by_date d0 cp pe mo d.
Proof.
  induction ws as [| y ws IH]; intros d0 mo d Hn; [ reflexivity | ].
  rewrite apply_writes_cons, IH by (cbn in Hn; tauto).
  apply lookup_upsert_other. cbn in Hn. tauto.
Qed.

(** When no two writes share a key, every write reads back as written. *)
Lemma lookup_apply_writes (cp pe : Z) (l : float) (ws : list write) :
  forall d0 x,
    NoDup (map key_of ws) -> In x ws ->
    get_prediction_by_date (apply_writes cp pe l ws d0) cp pe
      (w_model x) (w_date x)
    = Some (mkPrediction cp pe (w_model x) (w_value x) l (w_date x)).
Proof.
  induction ws as [| y ws IH]; intros d0 x Hnd Hin; [ contradiction | ].
  rewrite apply_writes_cons. cbn in Hnd. inversion Hnd as [| ? ? Hy Hnd']; subst.
  destruct Hin as [-> | Hin].
  - rewrite lookup_apply_writes_frame by assumption.
    apply lookup_upsert_same.
  - now apply IH.
Qed.

(** ** The handler, step by step *)

Section HandlerFacts.

Variable E : Env.

Lemma index_in_range {A} (xs : list A) (i : nat) (dflt : A) (w : world) :
  (i < List.length xs)%nat -> index xs i w = (inr (nth i xs dflt), w).
Proof.
  intros H. unfold index. now rewrite (nth_error_nth' xs dflt H).
Qed.

(** The storing loop, when both models are known and both rollouts are long
    enough, makes the planned writes and reads the clock once a turn. *)
Lemma store_loop (period : string) (cp pe : Z) (lm sm : PredictionModel)
    (preds spreds : list float) (c : float) :
  forall n i w,
    (i + n <= List.length preds)%nat -> (i + n <= List.length spreds)%nat ->
    for_each (seq i n)
      (store_step E period cp pe (Some lm) (Some sm) preds spreds c) w
    = (inr tt,
       mkWorld
         (apply_writes cp pe c
            (planned_writes E period (model_id lm) (model_id sm) preds spreds
               i (ticks w) n) (db w))
         (ticks w + n) (calls w)).
Proof.
  induction n as [| n IH]; intros i w Hp Hs.
  - cbn. unfold ret. rewrite Nat.add_0_r. now destruct w.
  - cbn [seq for_each planned_writes].
    unfold store_step. run.
    rewrite (index_in_range preds i S754_nan) by lia. run.
    rewrite (index_in_range spreds i S754_nan) by lia. run.
    rewrite IH by lia. cbn [db ticks calls].
    rewrite apply_writes_cons, apply_writes_cons. cbn [w_model w_value w_date].
    now rewrite Nat.add_succ_r.
Qed.

Lemma store_step_calls (period : string) (cp pe : Z)
    (lm sm : option PredictionModel) (preds spreds : list float) (c : float)
    (i : nat) (w : world) :
  calls (snd (store_step E period cp pe lm sm preds spreds c i w)) = calls w.
Proof.
  unfold store_step, index. run.
  destruct (nth_error preds i); run; [ | reflexivity ].
  destruct lm; run; [ | reflexivity ].
  destruct (nth_error spreds i); run; [ | reflexivity ].
  destruct sm; reflexivity.
Qed.

(** The storing loop calls neither the loader nor the model, whatever its
    outcome. *)
Lemma store_loop_calls (period : string) (cp pe : Z)
    (lm sm : option PredictionModel) (preds spreds : list float) (c : float)
    (l : list nat) :
  forall w,
    calls (snd (for_each l (store_step E period cp pe lm sm preds spreds c) w))
    = calls w.
Proof.
  induction l as [| i l IH]; intros w; [ reflexivity | ].
  cbn [for_each]. unfold bind.
  pose proof (store_step_calls period cp pe lm sm preds spreds c i w) as Hs.
  destruct (store_step E period cp pe lm sm preds spreds c i w)
    as [[e | u] w1]; cbn [snd] in *; [ exact Hs | ].
  now rewrite IH.
Qed.

(** The recompute branch always begins by asking for the artifact. *)
Lemma recompute_calls (cpn pn : string) (rows : list OHLCData)
    (s : option float) (cp pe : Z) (lm sm : option PredictionModel)
    (c : float) (n : nat) (w : world) :
  exists evs,
    calls (snd (recompute E cpn pn rows s cp pe lm sm c n w))
    = (calls w ++ LoadModelAndScaler cpn pn :: evs)%list.
Proof.
  unfold recompute. run.
  destruct (load_model_and_scaler E cpn pn) as [art |];
    [ | exists []; reflexivity ].
  destruct (preprocess E rows art) as [e | sq]; [ exists []; reflexivity | ].
  destruct s as [x |]; run;
    match goal with
    | |- context [for_each ?l (store_step _ _ _ _ _ _ ?p ?q _) ?w0] =>
        pose proof (store_loop_calls pn cp pe lm sm p q c l w0) as H;
        destruct (for_each l (store_step E pn cp pe lm sm p q c) w0)
          as [[e | u] w1]
    end; cbn [snd calls] in *; rewrite H; rewrite <- !app_assoc;
    eexists; reflexivity.
Qed.

Lemma respond_ok (cp pe : Z) (lm sm : PredictionModel) (w : world) :
  respond cp pe (Some lm) (Some sm) w
  = (inr (mkResponse (series (db w) cp pe (model_id lm))
                     (series (db w) cp pe (model_id sm))), w).
Proof. reflexivity. Qed.

Lemma respond_calls (cp pe : Z) (lm sm : option PredictionModel) (w : world) :
  snd (respond cp pe lm sm w) = w.
Proof. destruct lm, sm; reflexivity. Qed.

End HandlerFacts.

Section PredictFacts.

Variable E : Env.
Variables (cpn pn : string) (req : PredictionRequest) (w : world).
Variables (cpr : CurrencyPair) (per : Period) (lm : PredictionModel).
Variable bar : OHLCData.

Hypothesis pair_known : get_currency_pair (db w) (upper cpn) = Some cpr.
Hypothesis period_known : get_period (db w) (lower pn) = Some per.
Hypothesis lstm_known : get_prediction_model (db w) "LSTM" = Some lm.
Hypothesis last_bar : hd_error (rev (data req)) = Some bar.

Let matched : datetime :=
  match_date_to_period (clock E (ticks w)) (lower pn) 0.

Let existing : list Prediction :=
  get_n_future_predictions (db w) (pair_id cpr) (period_id per) (model_id lm)
    matched 5.

Let sentiment_model : option PredictionModel :=
  get_prediction_model (db w) "LSTM_Sentiment".

(** A request with known identifiers and at least one bar reaches the
    cache check, after one reading of the clock. *)
Lemma predict_body_reaches_check :
  predict_body E cpn pn req w
  = ((if negb (cache_is_fresh existing 5 (Close bar))
      then recompute E (upper cpn) (lower pn) (data req) (sentimentScore req)
             (pair_id cpr) (period_id per) (Some lm) sentiment_model
             (Close bar) 5
      else ret tt) ;;;
     respond (pair_id cpr) (period_id per) (Some lm) sentiment_model)
      (after_check w).
Proof.
  unfold predict_body. run. rewrite pair_known, period_known, lstm_known.
  unfold last_close. destruct (rev (data req)) as [| b rest];
    [ discriminate | ].
  injection last_bar as ->. run. reflexivity.
Qed.

Lemma predict_fresh :
  cache_is_fresh existing 5 (Close bar) = true ->
  predict E cpn pn req w
  = except_clauses
      (respond (pair_id cpr) (period_id per) (Some lm) sentiment_model)
      (after_check w).
Proof.
  intros Hf. unfold predict, except_clauses.
  rewrite predict_body_reaches_check, Hf. reflexivity.
Qed.

Lemma predict_stale :
  cache_is_fresh existing 5 (Close bar) = false ->
  predict E cpn pn req w
  = except_clauses
      (recompute E (upper cpn) (lower pn) (data req) (sentimentScore req)
         (pair_id cpr) (period_id per) (Some lm) sentiment_model
         (Close bar) 5 ;;;
       respond (pair_id cpr) (period_id per) (Some lm) sentiment_model)
      (after_check w).
Proof.
  intros Hf. unfold predict, except_clauses.
  rewrite predict_body_reaches_check, Hf. reflexivity.
Qed.

End PredictFacts.

(** ** Floats and the freshness test *)

Lemma float_eqb_refl (c : float) : is_nan c = false -> float_eqb c c = true.
Proof.
  unfold float_eqb, SFeqb, SFcompare.
  destruct c as [s | s | | s m e]; cbn; intros H; try discriminate;
    try reflexivity.
  - now destruct s.
  - destruct s; now rewrite Z.compare_refl, Pos.compare_cont_refl.
Qed.

Lemma float_eqb_nan (c : float) : is_nan c = true -> float_eqb c c = false.
Proof. destruct c; cbn; intros H; try discriminate. reflexivity. Qed.

(** ** Storage: the range query *)

Lemma insert_by_date_length (x : Prediction) (l : list Prediction) :
  List.length (insert_by_date x l) = S (List.length l).
Proof.
  induction l as [| y l IH]; cbn; [ reflexivity | ].
  destruct (DateTime.leb (date x) (date y)); cbn; now rewrite ?IH.
Qed.

Lemma sort_by_date_length (l : list Prediction) :
  List.length (sort_by_date l) = List.length l.
Proof.
  induction l as [| x l IH]; cbn; [ reflexivity | ].
  now rewrite insert_by_date_length, IH.
Qed.

Lemma insert_by_date_in (x y : Prediction) (l : list Prediction) :
  In y (insert_by_date x l) -> y = x \/ In y l.
Proof.
  induction l as [| z l IH]; cbn.
  - intros [-> | []]. now left.
  - destruct (DateTime.leb (date x) (date z)); cbn.
    + intros [-> | [-> | H]]; auto.
    + intros [-> | H]; auto. destruct (IH H); auto.
Qed.

Lemma sort_by_date_in (y : Prediction) (l : list Prediction) :
  In y (sort_by_date l) -> In y l.
Proof.
  induction l as [| x l IH]; cbn; [ tauto | ].
  intros H. apply insert_by_date_in in H as [-> | H]; auto.
Qed.

Lemma leb_refl (d : datetime) : DateTime.leb d d = true.
Proof. unfold DateTime.leb. now rewrite compare_refl. Qed.

Lemma leb_strict (a b : datetime) :
  DateTime.leb a b = true -> DateTime.eqb b a = false ->
  DateTime.leb b a = false.
Proof.
  unfold DateTime.leb, DateTime.eqb. rewrite (compare_antisym a b).
  now destruct (DateTime.compare a b).
Qed.

(** The range query is sorted stably: its first row is the first stored row
    of the earliest date. *)
Lemma sort_by_date_head (d0 : datetime) (r0 : Prediction)
    (l : list Prediction) :
  find (fun x => DateTime.eqb (date x) d0) l = Some r0 ->
  (forall x, In x l -> DateTime.leb d0 (date x) = true) ->
  exists rest, sort_by_date l = r0 :: rest.
Proof.
  induction l as [| x l IH]; cbn [find sort_by_date]; [ discriminate | ].
  intros Hf Hb.
  destruct (DateTime.eqb (date x) d0) eqn:Hx.
  - injection Hf as <-. apply eqb_eq in Hx.
    destruct (sort_by_date l) as [| y s] eqn:Hs; cbn; [ eauto | ].
    assert (Hy : DateTime.leb (date x) (date y) = true).
    { rewrite Hx. apply Hb. right. apply sort_by_date_in. rewrite Hs.
      now left. }
    rewrite Hy. eauto.
  - destruct (IH Hf) as [rest Hs]; [ intros y Hy; apply Hb; now right | ].
    rewrite Hs. cbn.
    pose proof (find_some _ _ Hf) as [_ Hd]. apply eqb_eq in Hd.
    rewrite Hd, (leb_strict d0 (date x)); [ eauto | | exact Hx ].
    apply Hb. now left.
Qed.

Lemma find_in_range (cp pe mo : Z) (d : datetime) (rows : list Prediction) :
  find (fun x => DateTime.eqb (date x) d)
       (filter (fun r => of_triple cp pe mo r && DateTime.leb d (date r)) rows)
  = find (has_key cp pe mo d) rows.
Proof.
  induction rows as [| x rows IH]; cbn [filter find]; [ reflexivity | ].
  unfold has_key at 1.
  destruct (of_triple cp pe mo x); cbn [andb]; [ | exact IH ].
  destruct (DateTime.eqb (date x) d) eqn:Hx.
  - apply eqb_eq in Hx. rewrite <- Hx, leb_refl. cbn [find].
    now rewrite eqb_refl.
  - destruct (DateTime.leb d (date x)); cbn [find]; rewrite ?Hx; exact IH.
Qed.

Lemma enough_rows (g : Prediction -> bool) (rows : list Prediction)
    (ds : list datetime) :
  NoDup ds ->
  (forall d, In d ds -> exists r, In r rows /\ g r = true /\ date r = d) ->
  (List.length ds <= List.length (filter g rows))%nat.
Proof.
  intros Hnd H. rewrite <- (length_map date (filter g rows)).
  apply NoDup_incl_length; [ exact Hnd | ].
  intros d Hd. destruct (H d Hd) as (r & Hr & Hg & <-).
  apply in_map, filter_In. auto.
Qed.

(** When the rows of [n] distinct dates from [d0] on are stored and the
    first stored row of [d0] carries the anchor [c], the cache is fresh for
    a request anchored at [c]. *)
Lemma fresh_when_stored (d1 : DB) (cp pe mo : Z) (c : float)
    (d0 : datetime) (ds : list datetime) (n : nat) :
  float_eqb c c = true ->
  NoDup ds -> (n <= List.length ds)%nat -> (0 < n)%nat ->
  stored_with_anchor d1 cp pe mo d0 c ->
  (forall d, In d ds ->
     DateTime.leb d0 d = true
     /\ exists r, get_prediction_by_date d1 cp pe mo d = Some r) ->
  cache_is_fresh (get_n_future_predictions d1 cp pe mo d0 n) n c = true.
Proof.
  intros Hc Hnd Hlen Hn (r0 & Hr0 & Ha) Hds.
  unfold get_n_future_predictions, cache_is_fresh.
  set (g := fun r => of_triple cp pe mo r && DateTime.leb d0 (date r)).
  assert (Hrows : (n <= List.length (filter g (predictions d1)))%nat).
  { etransitivity; [ exact Hlen | ].
    apply enough_rows; [ exact Hnd | ].
    intros d Hd. destruct (Hds d Hd) as (Hle & r & Hr).
    unfold get_prediction_by_date in Hr.
    pose proof (find_some _ _ Hr) as [Hin Hk].
    exists r. split; [ exact Hin | ]. unfold has_key in Hk.
    apply andb_true_iff in Hk as [Ht Hd']. apply eqb_eq in Hd'.
    split; [ | exact Hd' ]. subst g. cbn. now rewrite Ht, Hd', Hle. }
  destruct (sort_by_date_head d0 r0 (filter g (predictions d1)))
    as [rest Hs].
  - subst g. rewrite find_in_range. exact Hr0.
  - intros x Hx. apply filter_In in Hx as [_ Hx]. subst g. cbn in Hx.
    now apply andb_true_iff in Hx as [_ Hx].
  - assert (Hl : List.length (firstn n (sort_by_date (filter g (predictions d1))))
                 = n).
    { rewrite length_firstn, sort_by_date_length. lia. }
    rewrite Hl, Nat.leb_refl. cbn [andb]. rewrite Hs.
    destruct n as [| n0]; [ lia | ]. cbn [firstn]. now rewrite Ha.
Qed.

(** The range query returns [n] rows exactly when [n] rows of the triple
    are stored from the date on. *)
Lemma range_query_length (d1 : DB) (cp pe mo : Z) (d0 : datetime) (n : nat) :
  (n <=? List.length (get_n_future_predictions d1 cp pe mo d0 n))%nat
  = (n <=? List.length
             (filter (fun r => of_triple cp pe mo r
                               && DateTime.leb d0 (date r))
                     (predictions d1)))%nat.
Proof.
  unfold get_n_future_predictions.
  rewrite length_firstn, sort_by_date_length.
  destruct (Nat.leb_spec n (List.length
    (filter (fun r => of_triple cp pe mo r && DateTime.leb d0 (date r))
            (predictions d1)))) as [H | H].
  - apply Nat.leb_le. lia.
  - apply Nat.leb_gt. lia.
Qed.

(** ** Targets of the aligned periods *)

Lemma match_date_wf (now : datetime) (period : string) (k : Z) :
  aligned period -> wf (match_date_to_period now period k).
Proof.
  intros [-> | ->]; unfold match_date_to_period;
    cbn [String.eqb Ascii.eqb Bool.eqb]; apply of_micros_wf.
Qed.

(** The target of offset [k] lies [k] bucket widths after the target of
    offset 0. *)
Lemma match_date_micros (now : datetime) (period : string) (k : Z) :
  aligned period ->
  to_micros (match_date_to_period now period k)
  = to_micros (match_date_to_period now period 0)
    + k * (if String.eqb period "d1" then us_per_day else us_per_hour).
Proof.
  intros [-> | ->]; unfold match_date_to_period;
    cbn [String.eqb Ascii.eqb Bool.eqb]; unfold add; rewrite !to_of_micros;
    unfold DateOffset_days, DateOffset_hours; lia.
Qed.

Lemma match_date_lt (now : datetime) (period : string) (i j : Z) :
  aligned period -> i < j ->
  DateTime.ltb (match_date_to_period now period i)
               (match_date_to_period now period j) = true.
Proof.
  intros Hp Hij. rewrite ltb_micros by now apply match_date_wf.
  rewrite (match_date_micros now period i Hp),
    (match_date_micros now period j Hp).
  apply Z.ltb_lt.
  destruct (String.eqb period "d1"); unfold us_per_day, us_per_hour,
    us_per_minute, us_per_second; nia.
Qed.

Lemma match_date_le (now : datetime) (period : string) (i j : Z) :
  aligned period -> i <= j ->
  DateTime.leb (match_date_to_period now period i)
               (match_date_to_period now period j) = true.
Proof.
  intros Hp Hij. rewrite leb_micros by now apply match_date_wf.
  rewrite (match_date_micros now period i Hp),
    (match_date_micros now period j Hp).
  apply Z.leb_le.
  destruct (String.eqb period "d1"); unfold us_per_day, us_per_hour,
    us_per_minute, us_per_second; nia.
Qed.

Lemma match_date_inj (now : datetime) (period : string) (i j : Z) :
  aligned period ->
  match_date_to_period now period i = match_date_to_period now period j ->
  i = j.
Proof.
  intros Hp H.
  destruct (Z.lt_trichotomy i j) as [Hl | [He | Hl]]; [ | exact He | ];
    apply (match_date_lt now period _ _ Hp) in Hl;
    rewrite H in Hl; unfold DateTime.ltb in Hl;
    rewrite compare_refl in Hl; discriminate.
Qed.

(** Two readings of one bucket give the same targets at every offset. *)
Lemma match_date_same_bucket (a b : datetime) (period : string) (k : Z) :
  aligned period ->
  match_date_to_period a period 0 = match_date_to_period b period 0 ->
  match_date_to_period a period k = match_date_to_period b period k.
Proof.
  intros Hp H.
  rewrite <- (of_to_micros (match_date_to_period a period k))
    by now apply match_date_wf.
  rewrite <- (of_to_micros (match_date_to_period b period k))
    by now apply match_date_wf.
  now rewrite (match_date_micros a period k Hp),
    (match_date_micros b period k Hp), H.
Qed.

(** ** What the storing loop plans *)
Section PlannedWrites.

Variable E : Env.
Variables (period : string) (lstm sent : Z) (preds spreds : list float).

Lemma planned_writes_length (n i t : nat) :
  List.length (planned_writes E period lstm sent preds spreds i t n)
  = (2 * n)%nat.
Proof.
  revert i t. induction n as [| n IH]; intros i t; cbn [planned_writes];
    [ reflexivity | ].
  cbn [List.length]. rewrite IH. lia.
Qed.


(** While the clock stays in one bucket of an aligned period, the dates
    the loop computes are the targets of the first reading. *)
Lemma planned_writes_steady (now : datetime) (n i t : nat) :
  aligned period ->
  (forall j, (j < n)%nat ->
     match_date_to_period (clock E (t + j)) period 0
     = match_date_to_period now period 0) ->
  planned_writes E period lstm sent preds spreds i t n
  = aligned_writes now period lstm sent preds spreds i n.
Proof.
  intros Hp. unfold aligned_writes. revert i t.
  induction n as [| n IH]; intros i t H; [ reflexivity | ].
  cbn [planned_writes seq flat_map app].
  rewrite (match_date_same_bucket (clock E t) now period _ Hp)
    by (rewrite <- (H 0%nat ltac:(lia)); now rewrite Nat.add_0_r).
  rewrite (IH (S i) (S t)); [ reflexivity | ].
  intros j Hj. rewrite <- (H (S j) ltac:(lia)). now rewrite Nat.add_succ_r.
Qed.

End PlannedWrites.

(** ** Identifier case *)

Lemma upper_of_lower_letter (a : ascii) :
  is_lower a = true ->
  upper_ascii (upper_ascii a) = upper_ascii a
  /\ lower_ascii (upper_ascii a) = lower_ascii a.
Proof.
  destruct a as [[] [] [] [] [] [] [] []]; vm_compute; intros H;
    try discriminate H; split; reflexivity.
Qed.

Lemma same_letter_case (a b : ascii) :
  same_letter a b = true ->
  upper_ascii a = upper_ascii b /\ lower_ascii a = lower_ascii b.
Proof.
  unfold same_letter. rewrite !orb_true_iff, !andb_true_iff.
  intros [[H | [Hl H]] | [Hl H]]; apply Ascii.eqb_eq in H; subst.
  - auto.
  - destruct (upper_of_lower_letter a Hl) as [-> ->]. auto.
  - destruct (upper_of_lower_letter b Hl) as [-> ->]. auto.
Qed.

Lemma differ_only_in_case_normal (s t : string) :
  differ_only_in_case s t = true -> upper s = upper t /\ lower s = lower t.
Proof.
  revert t. induction s as [| a s IH]; intros [| b t]; cbn;
    try discriminate; [ auto | ].
  intros H. apply andb_true_iff in H as [Hab Hst].
  destruct (same_letter_case a b Hab) as [-> ->].
  destruct (IH t Hst) as [-> ->]. auto.
Qed.

(** ** The recompute branch, when it succeeds *)
Section RecomputeFacts.

Variable E : Env.

Lemma recompute_ok (cpn pn : string) (rows : list OHLCData)
    (s : option float) (cp pe : Z) (lm sm : PredictionModel) (c : float)
    (w : world) (art : Artifact E) (sq : Sequences E) :
  load_model_and_scaler E cpn pn = Some art ->
  preprocess E rows art = inr sq ->
  let preds := get_multiple_predictions E sq art None in
  let spreds := match s with
                | None => preds
                | Some x => get_multiple_predictions E sq art (Some x)
                end in
  (5 <= List.length preds)%nat -> (5 <= List.length spreds)%nat ->
  recompute E cpn pn rows s cp pe (Some lm) (Some sm) c 5 w
  = (inr tt,
     mkWorld
       (apply_writes cp pe c
          (planned_writes E pn (model_id lm) (model_id sm) preds spreds
             0 (ticks w) 5) (db w))
       (ticks w + 5)
       (calls w ++ LoadModelAndScaler cpn pn :: GetMultiplePredictions None
          :: match s with
             | None => []
             | Some x => [GetMultiplePredictions (Some x)]
             end)%list).
Proof.
  intros Hl Hp preds spreds Hn Hm. unfold recompute. run.
  rewrite Hl, Hp. run. subst preds spreds.
  destruct s as [x |]; run; rewrite store_loop by (cbn; lia);
    cbn [db ticks calls]; rewrite <- !app_assoc; reflexivity.
Qed.

End RecomputeFacts.

(** ** Serve or recompute *)

Lemma except_clauses_world {A} (c : M A) (w : world) :
  snd (except_clauses c w) = snd (c w).
Proof.
  unfold except_clauses. destruct (c w) as [[e | a] w1]; [ | reflexivity ].
  now destruct e.
Qed.

Lemma then_respond_world (c : M unit) (cp pe : Z)
    (lm sm : option PredictionModel) (w : world) :
  snd ((c ;;; respond cp pe lm sm) w) = snd (c w).
Proof.
  unfold bind. destruct (c w) as [[e | u] w1]; [ reflexivity | ].
  apply respond_calls.
Qed.

Lemma cache_is_fresh_iff (existing : list Prediction) (n : nat) (c : float) :
  cache_is_fresh existing n c = true
  <-> (n <= List.length existing)%nat
      /\ exists r rest, existing = r :: rest
                        /\ float_eqb (last_live_value r) c = true.
Proof.
  unfold cache_is_fresh. rewrite andb_true_iff, Nat.leb_le.
  split; intros [Hn H]; (split; [ exact Hn | ]).
  - destruct existing as [| r rest]; [ discriminate | eauto ].
  - destruct H as (r & rest & -> & H). exact H.
Qed.

(** C7: when the recompute branch runs and no artifact exists for the pair
    and period, the request fails as not found (404) and nothing is
    stored. *)
Theorem missing_artifact_is_not_found (E : Env) (cpn pn : string)
    (req : PredictionRequest) (w : world) (cpr : CurrencyPair) (per : Period)
    (lm : PredictionModel) (bar : OHLCData) :
  get_currency_pair (db w) (upper cpn) = Some cpr ->
  get_period (db w) (lower pn) = Some per ->
  get_prediction_model (db w) "LSTM" = Some lm ->
  hd_error (rev (data req)) = Some bar ->
  cache_is_fresh
    (get_n_future_predictions (db w) (pair_id cpr) (period_id per)
       (model_id lm)
       (match_date_to_period (clock E (ticks w)) (lower pn) 0) 5)
    5 (Close bar) = false ->
  load_model_and_scaler E (upper cpn) (lower pn) = None ->
  fst (predict E cpn pn req w) = inl (HTTPException 404)
  /\ fst (predict E cpn pn req w) <> inl (HTTPException 400)
  /\ fst (predict E cpn pn req w) <> inl (HTTPException 500)
  /\ db (snd (predict E cpn pn req w)) = db w.
Proof.
  intros Hc Hp Hl Hb Hf Hnone.
  rewrite (predict_stale E cpn pn req w cpr per lm bar Hc Hp Hl Hb Hf).
  unfold except_clauses, recompute. run. rewrite Hnone. run.
  repeat split; discriminate.
Qed.

Lemma missing_artifact_is_not_found_witness :
  fst (predict Sample.env "gbpusd" "d1" Sample.request Sample.start)
  = inl (HTTPException 404).
Proof.
  apply (missing_artifact_is_not_found Sample.env "gbpusd" "d1"
           Sample.request Sample.start (mkPair 2 "GBPUSD") (mkPeriod 1 "d1")
           (mkModel 1 "LSTM") (Sample.bar (Sample.fl 5 (-2))));
    reflexivity.
Defined.

(** C6, on the code: a request that names a pair or a period unknown to
    storage raises the 400 inside the [try] block, where the last [except]
    clause turns it into a 500, the outcome of an unexpected failure;
    nothing is stored and the clock is not read. *)
Theorem unknown_identifier_is_reported_as_500 (E : Env) (cpn pn : string)
    (req : PredictionRequest) (w : world) :
  get_currency_pair (db w) (upper cpn) = None
  \/ get_period (db w) (lower pn) = None ->
  predict_body E cpn pn req w = (inl (HTTPException 400), w)
  /\ predict E cpn pn req w = (inl (HTTPException 500), w).
Proof.
  intros H. unfold predict, except_clauses.
  assert (Hb : predict_body E cpn pn req w = (inl (HTTPException 400), w)).
  { unfold predict_body. run.
    destruct (get_currency_pair (db w) (upper cpn)) as [cpr |];
      [ | now destruct w ].
    destruct H as [H | H]; [ discriminate H | ]. rewrite H. now destruct w. }
  rewrite Hb. auto.
Qed.

Lemma unknown_identifier_is_reported_as_500_witness :
  predict Sample.env "XAUUSD" "h1" Sample.request Sample.start
  = (inl (HTTPException 500), Sample.start).
Proof.
  apply (unknown_identifier_is_reported_as_500 Sample.env "XAUUSD" "h1"
           Sample.request Sample.start).
  left. reflexivity.
Defined.

(** The 500 of an unknown identifier is the outcome of an unexpected
    failure, such as a request without bars. *)
Lemma unknown_identifier_like_internal_failure :
  predict Sample.env "XAUUSD" "h1" Sample.request Sample.start
  = predict Sample.env "EURUSD" "h1" (mkRequest [] None) Sample.start
  /\ predict Sample.env "EURUSD" "w1" Sample.request Sample.start
     = predict Sample.env "EURUSD" "h1" (mkRequest [] None) Sample.start.
Proof. split; reflexivity. Qed.

(** C10: two requests whose pair and period identifiers differ only in the
    case of their letters look up the same uppercased pair name and the same
    lowercased period name, and have the same outcome. *)
Theorem predict_ignores_identifier_case (E : Env) (c1 c2 p1 p2 : string)
    (req : PredictionRequest) (w : world) :
  differ_only_in_case c1 c2 = true ->
  differ_only_in_case p1 p2 = true ->
  get_currency_pair (db w) (upper c1) = get_currency_pair (db w) (upper c2)
  /\ get_period (db w) (lower p1) = get_period (db w) (lower p2)
  /\ predict E c1 p1 req w = predict E c2 p2 req w.
Proof.
  intros Hc Hp.
  apply differ_only_in_case_normal in Hc as [Hc _].
  apply differ_only_in_case_normal in Hp as [_ Hp].
  unfold predict, predict_body. rewrite Hc, Hp. auto.
Qed.

Lemma predict_ignores_identifier_case_witness :
  predict Sample.env "eurUSD" "H1" Sample.request Sample.start
  = predict Sample.env "EurUsd" "h1" Sample.request Sample.start.
Proof.
  apply (predict_ignores_identifier_case Sample.env "eurUSD" "EurUsd"
           "H1" "h1" Sample.request Sample.start); reflexivity.
Defined.

(** ** A successful recompute *)

Lemma update_first_length (f : Prediction -> bool)
    (g : Prediction -> Prediction) (l : list Prediction) :
  List.length (update_first f g l) = List.length l.
Proof.
  induction l as [| x l IH]; cbn; [ reflexivity | ].
  destruct (f x); cbn; now rewrite ?IH.
Qed.

(** The upsert by key: the key reads back the new value and anchor; a
    missing key gains one row at the end of the table, a stored key keeps
    the number of rows. *)
Lemma upsert_row_by_key (d0 : DB) (cp pe mo : Z) (v c : float) (d : datetime) :
  get_prediction_by_date (upsert_row d0 cp pe mo v c d) cp pe mo d
  = Some (mkPrediction cp pe mo v c d)
  /\ (get_prediction_by_date d0 cp pe mo d = None ->
      predictions (upsert_row d0 cp pe mo v c d)
      = (predictions d0 ++ [mkPrediction cp pe mo v c d])%list)
  /\ (forall e, get_prediction_by_date d0 cp pe mo d = Some e ->
      List.length (predictions (upsert_row d0 cp pe mo v c d))
      = List.length (predictions d0)).
Proof.
  split; [ apply lookup_upsert_same | ]. unfold upsert_row. split.
  - intros ->. reflexivity.
  - intros e ->. unfold update_prediction; cbn [predictions with_predictions].
    apply update_first_length.
Qed.

Section RecomputedRequest.

Variable E : Env.
Variables (cpn pn : string) (req : PredictionRequest) (w : world).
Variables (cpr : CurrencyPair) (per : Period) (lm sm : PredictionModel).
Variable bar : OHLCData.
Variables (art : Artifact E) (sq : Sequences E).

Hypothesis pair_known : get_currency_pair (db w) (upper cpn) = Some cpr.
Hypothesis period_known : get_period (db w) (lower pn) = Some per.
Hypothesis lstm_known : get_prediction_model (db w) "LSTM" = Some lm.
Hypothesis sentiment_known :
  get_prediction_model (db w) "LSTM_Sentiment" = Some sm.
Hypothesis last_bar : hd_error (rev (data req)) = Some bar.
Hypothesis stale :
  cache_is_fresh
    (get_n_future_predictions (db w) (pair_id cpr) (period_id per)
       (model_id lm)
       (match_date_to_period (clock E (ticks w)) (lower pn) 0) 5)
    5 (Close bar) = false.
Hypothesis artifact_found :
  load_model_and_scaler E (upper cpn) (lower pn) = Some art.
Hypothesis sequences_built : preprocess E (data req) art = inr sq.

Let preds : list float := get_multiple_predictions E sq art None.

Let spreds : list float :=
  match sentimentScore req with
  | None => preds
  | Some x => get_multiple_predictions E sq art (Some x)
  end.

Hypothesis plain_rollout_long : (5 <= List.length preds)%nat.
Hypothesis sentiment_rollout_long : (5 <= List.length spreds)%nat.

Let stored : DB :=
  apply_writes (pair_id cpr) (period_id per) (Close bar)
    (planned_writes E (lower pn) (model_id lm) (model_id sm) preds spreds
       0 (S (ticks w)) 5)
    (db w).

(** The whole request on the recompute branch: the planned writes are
    made, six clock readings are taken, the model is asked once or twice,
    and both stored series are returned. *)
Lemma predict_recomputed :
  predict E cpn pn req w
  = (inr (mkResponse
            (series stored (pair_id cpr) (period_id per) (model_id lm))
            (series stored (pair_id cpr) (period_id per) (model_id sm))),
     mkWorld stored (S (ticks w) + 5)
       (calls w ++ LoadModelAndScaler (upper cpn) (lower pn)
          :: GetMultiplePredictions None
          :: match sentimentScore req with
             | None => []
             | Some x => [GetMultiplePredictions (Some x)]
             end)%list).
Proof.
  rewrite (predict_stale E cpn pn req w cpr per lm bar pair_known
             period_known lstm_known last_bar stale).
  rewrite sentiment_known. unfold except_clauses, bind.
  rewrite (recompute_ok E (upper cpn) (lower pn) (data req)
             (sentimentScore req) (pair_id cpr) (period_id per) lm sm
             (Close bar) (after_check w) art sq artifact_found
             sequences_built plain_rollout_long sentiment_rollout_long).
  rewrite respond_ok. reflexivity.
Qed.

End RecomputedRequest.

(** The planned writes, turn by turn. *)
Lemma flat_map_seq_shift {A} (f : nat -> list A) (n a : nat) :
  flat_map f (seq (S a) n) = flat_map (fun k => f (S k)) (seq a n).
Proof.
  revert a. induction n as [| n IH]; intros a; cbn; [ reflexivity | ].
  now rewrite IH.
Qed.

Lemma planned_writes_flat (E : Env) (period : string) (lstm sent : Z)
    (preds spreds : list float) :
  forall n i t,
    planned_writes E period lstm sent preds spreds i t n
    = flat_map
        (fun k =>
           [mkWrite lstm (nth (i + k) preds S754_nan)
              (match_date_to_period (clock E (t + k)) period
                 (Z.of_nat (i + k)));
            mkWrite sent (nth (i + k) spreds S754_nan)
              (match_date_to_period (clock E (t + k)) period
                 (Z.of_nat (i + k)))])
        (seq 0 n).
Proof.
  induction n as [| n IH]; intros i t; [ reflexivity | ].
  cbn [planned_writes seq flat_map app]. rewrite !Nat.add_0_r.
  do 2 f_equal. rewrite IH, flat_map_seq_shift.
  apply flat_map_ext. intros k. now rewrite !Nat.add_succ_r.
Qed.

(** C1: once the identifiers are known and the request has a bar, the
    cached predictions are served without recomputation if and only if at
    least 5 predictions of the (pair, period, plain model) triple are stored
    from the aligned target timestamp on and the anchor of the first
    returned one equals the last observed Close.  Served, the response
    lists the value and date of every stored row of the triple, for both
    variants, and only the clock was read.  Otherwise the whole recompute
    branch runs, beginning with the load of the artifact; when it succeeds
    it rolls the model out, upserts in every one of the 5 turns first the
    plain and then the sentiment prediction under the date of the turn, and
    the response lists the rows stored after these upserts. *)
Theorem cached_predictions_served_iff_fresh (E : Env) (cpn pn : string)
    (req : PredictionRequest) (w : world) (cpr : CurrencyPair) (per : Period)
    (lm sm : PredictionModel) (bar : OHLCData) :
  get_currency_pair (db w) (upper cpn) = Some cpr ->
  get_period (db w) (lower pn) = Some per ->
  get_prediction_model (db w) "LSTM" = Some lm ->
  get_prediction_model (db w) "LSTM_Sentiment" = Some sm ->
  hd_error (rev (data req)) = Some bar ->
  let matched := match_date_to_period (clock E (ticks w)) (lower pn) 0 in
  let stored_future :=
    filter (fun r => of_triple (pair_id cpr) (period_id per) (model_id lm) r
                     && DateTime.leb matched (date r))
           (predictions (db w)) in
  let existing :=
    get_n_future_predictions (db w) (pair_id cpr) (period_id per)
      (model_id lm) matched 5 in
  let fresh :=
    (5 <= List.length stored_future)%nat
    /\ exists r rest, existing = r :: rest
                      /\ float_eqb (last_live_value r) (Close bar) = true in
  let cp := pair_id cpr in
  let pe := period_id per in
  let listed := fun (d : DB) (mo : Z) =>
    map (fun r => mkPoint (value r) (date r))
        (filter (fun r => (p_pair r =? cp) && (p_period r =? pe)
                          && (p_model r =? mo))
                (predictions d)) in
  (fresh ->
     predict E cpn pn req w
     = (inr (mkResponse (listed (db w) (model_id lm))
                        (listed (db w) (model_id sm))),
        after_check w))
  /\ (~ fresh ->
      predict E cpn pn req w
      = except_clauses
          (recompute E (upper cpn) (lower pn) (data req) (sentimentScore req)
             (pair_id cpr) (period_id per) (Some lm) (Some sm) (Close bar) 5
           ;;; respond (pair_id cpr) (period_id per) (Some lm) (Some sm))
          (after_check w)
      /\ (exists evs,
            calls (snd (predict E cpn pn req w))
            = (calls w ++ LoadModelAndScaler (upper cpn) (lower pn)
                 :: evs)%list)
      /\ forall (art : Artifact E) (sq : Sequences E),
           load_model_and_scaler E (upper cpn) (lower pn) = Some art ->
           preprocess E (data req) art = inr sq ->
           let preds := get_multiple_predictions E sq art None in
           let spreds :=
             match sentimentScore req with
             | None => preds
             | Some x => get_multiple_predictions E sq art (Some x)
             end in
           (5 <= List.length preds)%nat -> (5 <= List.length spreds)%nat ->
           let turn := fun i : nat =>
             match_date_to_period (clock E (S (ticks w) + i)) (lower pn)
               (Z.of_nat i) in
           let ws :=
             flat_map
               (fun i =>
                  [mkWrite (model_id lm) (nth i preds S754_nan) (turn i);
                   mkWrite (model_id sm) (nth i spreds S754_nan) (turn i)])
               (seq 0 5) in
           let stored :=
             fold_left
               (fun d x => upsert_row d cp pe (w_model x) (w_value x)
                             (Close bar) (w_date x))
               ws (db w) in
           predict E cpn pn req w
           = (inr (mkResponse (listed stored (model_id lm))
                              (listed stored (model_id sm))),
              mkWorld stored (ticks w + 6)
                (calls w ++ LoadModelAndScaler (upper cpn) (lower pn)
                   :: GetMultiplePredictions None
                   :: match sentimentScore req with
                      | None => []
                      | Some x => [GetMultiplePredictions (Some x)]
                      end)%list)
           /\ forall i, (i < 5)%nat ->
                stored_with_anchor stored cp pe (model_id lm) (turn i)
                  (Close bar)
                /\ stored_with_anchor stored cp pe (model_id sm) (turn i)
                     (Close bar))
  /\ (fresh <-> calls (snd (predict E cpn pn req w)) = calls w).
Proof.
  intros Hc Hp Hl Hs Hb matched stored_future existing fresh cp pe listed.
  assert (Hfresh : fresh <-> cache_is_fresh existing 5 (Close bar) = true).
  { subst fresh. rewrite cache_is_fresh_iff.
    rewrite <- (Nat.leb_le 5 (List.length existing)).
    subst existing stored_future. rewrite range_query_length, Nat.leb_le.
    reflexivity. }
  assert (Hserve : cache_is_fresh existing 5 (Close bar) = true ->
            predict E cpn pn req w
            = (inr (mkResponse (listed (db w) (model_id lm))
                               (listed (db w) (model_id sm))),
               after_check w)).
  { intros Hf.
    rewrite (predict_fresh E cpn pn req w cpr per lm bar Hc Hp Hl Hb Hf).
    rewrite Hs. reflexivity. }
  assert (Hstale : cache_is_fresh existing 5 (Close bar) = false ->
            predict E cpn pn req w
            = except_clauses
                (recompute E (upper cpn) (lower pn) (data req)
                   (sentimentScore req) (pair_id cpr) (period_id per)
                   (Some lm) (Some sm) (Close bar) 5
                 ;;; respond (pair_id cpr) (period_id per) (Some lm) (Some sm))
                (after_check w)
            /\ exists evs,
                 calls (snd (predict E cpn pn req w))
                 = (calls w ++ LoadModelAndScaler (upper cpn) (lower pn)
                      :: evs)%list).
  { intros Hf.
    rewrite (predict_stale E cpn pn req w cpr per lm bar Hc Hp Hl Hb Hf).
    rewrite Hs. split; [ reflexivity | ].
    rewrite except_clauses_world, then_respond_world.
    change (calls w) with (calls (after_check w)).
    apply recompute_calls. }
  split; [ | split ].
  - intros H. apply Hserve, Hfresh, H.
  - intros H.
    assert (Hf : cache_is_fresh existing 5 (Close bar) = false).
    { destruct (cache_is_fresh existing 5 (Close bar)); [ | reflexivity ].
      exfalso. apply H, Hfresh. reflexivity. }
    destruct (Hstale Hf) as [Hbranch Hcalls].
    split; [ exact Hbranch | ]. split; [ exact Hcalls | ].
    intros art sq Hart Hsq preds spreds Hn Hm turn ws stored.
    pose proof (predict_recomputed E cpn pn req w cpr per lm sm bar art sq
                  Hc Hp Hl Hs Hb Hf Hart Hsq Hn Hm) as Hrun.
    rewrite planned_writes_flat in Hrun.
    replace (S (ticks w) + 5)%nat with (ticks w + 6)%nat in Hrun by lia.
    split; [ exact Hrun | ].
    intros i Hi.
    assert (Hin : In (mkWrite (model_id lm) (nth i preds S754_nan) (turn i)) ws
                  /\ In (mkWrite (model_id sm) (nth i spreds S754_nan)
                           (turn i)) ws).
    { split; apply in_flat_map; exists i;
        (split; [ apply in_seq; lia | cbn; auto ]). }
    destruct Hin as [H1 H2]. split.
    + exact (anchor_apply_writes cp pe (Close bar) ws (db w) _ H1).
    + exact (anchor_apply_writes cp pe (Close bar) ws (db w) _ H2).
  - rewrite Hfresh. split.
    + intros Hf. now rewrite (Hserve Hf).
    + intros Hcalls.
      destruct (cache_is_fresh existing 5 (Close bar)) eqn:Hf;
        [ reflexivity | ].
      destruct (Hstale eq_refl) as [_ [evs Hev]].
      rewrite Hcalls in Hev. rewrite <- (app_nil_r (calls w)) in Hev at 1.
      apply app_inv_head in Hev. discriminate.
Qed.

Lemma cached_predictions_served_iff_fresh_witness :
  calls (snd (predict Sample.env "eurusd" "H1" Sample.request
                Sample.after_first))
  = calls Sample.after_first.
Proof.
  refine (proj1 (proj2 (proj2 (cached_predictions_served_iff_fresh Sample.env
            "eurusd" "H1" Sample.request Sample.after_first
            (mkPair 1 "EURUSD") (mkPeriod 2 "h1") (mkModel 1 "LSTM")
            (mkModel 2 "LSTM_Sentiment") (Sample.bar (Sample.fl 5 (-2)))
            _ _ _ _ _))) _); try reflexivity.
  vm_compute. split; [ lia | ]. eexists; eexists. split; reflexivity.
Defined.

(** ** Writing one rollout under both variants *)
Section CopiedRollout.

Variable E : Env.
Variables (period : string) (cp pe lstm sent : Z) (c : float).
Variable preds : list float.




End CopiedRollout.




(** ** The writes of an aligned period *)
Section AlignedWrites.

Variables (now : datetime) (period : string) (lstm sent : Z).
Variables (preds spreds : list float).
Hypothesis period_aligned : aligned period.

Let target (k : nat) : datetime :=
  match_date_to_period now period (Z.of_nat k).

Lemma aligned_writes_cons (i n : nat) :
  aligned_writes now period lstm sent preds spreds i (S n)
  = mkWrite lstm (nth i preds S754_nan) (target i)
    :: mkWrite sent (nth i spreds S754_nan) (target i)
    :: aligned_writes now period lstm sent preds spreds (S i) n.
Proof. reflexivity. Qed.

Lemma aligned_writes_in (i n k : nat) :
  (i <= k < i + n)%nat ->
  In (mkWrite lstm (nth k preds S754_nan) (target k))
     (aligned_writes now period lstm sent preds spreds i n)
  /\ In (mkWrite sent (nth k spreds S754_nan) (target k))
        (aligned_writes now period lstm sent preds spreds i n).
Proof.
  intros Hk. unfold aligned_writes.
  split; apply in_flat_map; exists k; (split; [ apply in_seq; lia | ]);
    cbn; auto.
Qed.

Lemma aligned_keys (i n : nat) (mo : Z) (d : datetime) :
  In (mo, d)
     (map key_of (aligned_writes now period lstm sent preds spreds i n)) ->
  exists k, (i <= k < i + n)%nat /\ d = target k /\ (mo = lstm \/ mo = sent).
Proof.
  intros H. apply in_map_iff in H as (x & Hx & Hin).
  unfold aligned_writes in Hin. apply in_flat_map in Hin as (k & Hk & Hin).
  apply in_seq in Hk. exists k. split; [ lia | ].
  destruct Hin as [<- | [<- | []]]; injection Hx as <- <-; auto.
Qed.

Lemma target_inj (i j : nat) : target i = target j -> i = j.
Proof.
  intros H. apply (match_date_inj now period _ _ period_aligned) in H. lia.
Qed.

(** No two writes of the loop share a key when the two models differ. *)
Lemma aligned_keys_nodup (n i : nat) :
  lstm <> sent ->
  NoDup (map key_of (aligned_writes now period lstm sent preds spreds i n)).
Proof.
  intros Hne. revert i. induction n as [| n IH]; intros i; [ constructor | ].
  rewrite aligned_writes_cons. cbn [map key_of w_model w_date].
  constructor; [ | constructor; [ | apply IH ] ].
  - intros [H | H]; [ injection H as H; congruence | ].
    apply aligned_keys in H as (k & Hk & Hd & _). apply target_inj in Hd. lia.
  - intros H. apply aligned_keys in H as (k & Hk & Hd & _).
    apply target_inj in Hd. lia.
Qed.

End AlignedWrites.

Lemma apply_writes_tables (cp pe : Z) (c : float) (ws : list write) :
  forall d0,
    currency_pairs (apply_writes cp pe c ws d0) = currency_pairs d0
    /\ periods (apply_writes cp pe c ws d0) = periods d0
    /\ prediction_models (apply_writes cp pe c ws d0) = prediction_models d0.
Proof.
  induction ws as [| x ws IH]; intros d0; [ auto | ].
  rewrite apply_writes_cons.
  destruct (IH (upsert_row d0 cp pe (w_model x) (w_value x) c (w_date x)))
    as (-> & -> & ->).
  unfold upsert_row.
  destruct (get_prediction_by_date d0 cp pe (w_model x) (w_date x)); auto.
Qed.

(** C8, as the code has it: for the periods 'd1' and 'h1', while the clock
    stays in one bucket, a recompute stores exactly 5 predictions per model
    variant, one per turn in the order of the prediction index, keyed to the
    targets of offsets 0..4 of the first clock reading; these targets are
    strictly increasing, every key reads back the prediction of its index,
    and no other date is written. *)
Theorem recompute_stores_five_per_variant (E : Env) (cpn pn : string)
    (req : PredictionRequest) (w : world) (cpr : CurrencyPair) (per : Period)
    (lm sm : PredictionModel) (bar : OHLCData) (art : Artifact E)
    (sq : Sequences E) :
  aligned (lower pn) ->
  same_bucket E (lower pn) (ticks w) 5 ->
  model_id lm <> model_id sm ->
  get_currency_pair (db w) (upper cpn) = Some cpr ->
  get_period (db w) (lower pn) = Some per ->
  get_prediction_model (db w) "LSTM" = Some lm ->
  get_prediction_model (db w) "LSTM_Sentiment" = Some sm ->
  hd_error (rev (data req)) = Some bar ->
  cache_is_fresh
    (get_n_future_predictions (db w) (pair_id cpr) (period_id per)
       (model_id lm)
       (match_date_to_period (clock E (ticks w)) (lower pn) 0) 5)
    5 (Close bar) = false ->
  load_model_and_scaler E (upper cpn) (lower pn) = Some art ->
  preprocess E (data req) art = inr sq ->
  let preds := get_multiple_predictions E sq art None in
  let spreds := match sentimentScore req with
                | None => preds
                | Some x => get_multiple_predictions E sq art (Some x)
                end in
  (5 <= List.length preds)%nat -> (5 <= List.length spreds)%nat ->
  let cp := pair_id cpr in
  let pe := period_id per in
  let target := fun i : nat =>
    match_date_to_period (clock E (ticks w)) (lower pn) (Z.of_nat i) in
  let after := snd (predict E cpn pn req w) in
  db after
  = apply_writes cp pe (Close bar)
      (aligned_writes (clock E (ticks w)) (lower pn) (model_id lm) (model_id sm)
         preds spreds 0 5)
      (db w)
  /\ (forall i, (i < 5)%nat ->
        get_prediction_by_date (db after) cp pe (model_id lm) (target i)
        = Some (mkPrediction cp pe (model_id lm) (nth i preds S754_nan)
                  (Close bar) (target i))
        /\ get_prediction_by_date (db after) cp pe (model_id sm) (target i)
           = Some (mkPrediction cp pe (model_id sm) (nth i spreds S754_nan)
                     (Close bar) (target i)))
  /\ (forall i j, (i < j)%nat -> DateTime.ltb (target i) (target j) = true)
  /\ (forall mo d, (forall i, (i < 5)%nat -> d <> target i) ->
        get_prediction_by_date (db after) cp pe mo d
        = get_prediction_by_date (db w) cp pe mo d).
Proof.
  intros Hal Hbucket Hne Hc Hp Hl Hs Hb Hstale Hart Hsq preds spreds Hn Hm
    cp pe target after.
  pose proof (predict_recomputed E cpn pn req w cpr per lm sm bar art sq
                Hc Hp Hl Hs Hb Hstale Hart Hsq Hn Hm) as Hrun.
  rewrite (planned_writes_steady E (lower pn) (model_id lm) (model_id sm)
             _ _ (clock E (ticks w)) 5 0 (S (ticks w)) Hal) in Hrun.
  2:{ intros j Hj. rewrite <- (Hbucket (S j) ltac:(lia)).
      now rewrite Nat.add_succ_r. }
  subst after. rewrite Hrun. cbn [snd db].
  split; [ reflexivity | ]. split; [ | split ].
  - intros i Hi.
    destruct (aligned_writes_in (clock E (ticks w)) (lower pn) (model_id lm)
                (model_id sm) preds spreds 0 5 i ltac:(lia)) as [H1 H2].
    pose proof (aligned_keys_nodup (clock E (ticks w)) (lower pn)
                  (model_id lm) (model_id sm) preds spreds Hal 5 0 Hne) as Hnd.
    split.
    + exact (lookup_apply_writes cp pe (Close bar) _ (db w) _ Hnd H1).
    + exact (lookup_apply_writes cp pe (Close bar) _ (db w) _ Hnd H2).
  - intros i j Hij. apply match_date_lt; [ exact Hal | lia ].
  - intros mo d Hd. apply lookup_apply_writes_frame.
    intros Hin. apply aligned_keys in Hin as (k & Hk & Hdk & _).
    apply (Hd k); [ lia | exact Hdk ].
Qed.

Lemma recompute_stores_five_per_variant_witness :
  db (snd (predict Sample.env "eurusd" "h1" Sample.request Sample.start))
  = apply_writes 1 2 (Sample.fl 5 (-2))
      (aligned_writes Sample.now_1017 "h1" 1 2 Sample.plain_rollout
         Sample.plain_rollout 0 5)
      Sample.empty_db.
Proof.
  refine (proj1 (recompute_stores_five_per_variant Sample.env "eurusd" "h1"
            Sample.request Sample.start
            (mkPair 1 "EURUSD") (mkPeriod 2 "h1") (mkModel 1 "LSTM")
            (mkModel 2 "LSTM_Sentiment") (Sample.bar (Sample.fl 5 (-2)))
            tt tt _ _ _ _ _ _ _ _ _ _ _ _ _)).
  - right. reflexivity.
  - intros j _. reflexivity.
  - cbn. lia.
  - reflexivity.
  - reflexivity.
  - reflexivity.
  - reflexivity.
  - reflexivity.
  - reflexivity.
  - reflexivity.
  - reflexivity.
  - vm_compute. lia.
  - vm_compute. lia.
Defined.

(** C8 as stated fails for a stored period that is neither 'd1' nor 'h1',
    for which the target is the clock reading itself, whatever the offset.
    Under a stopped clock the five turns of a recompute write one key per
    variant; under a ticking clock they write five keys one microsecond
    apart, none of them a bucket boundary.  It also fails for 'h1' when the
    clock passes a bucket boundary during the loop: the hours written are
    not five consecutive ones. *)
Lemma unaligned_period_is_not_spread :
  calls (snd (predict Sample.env "eurusd" "m5" Sample.request Sample.start))
  = [LoadModelAndScaler "EURUSD" "m5"; GetMultiplePredictions None]
  /\ List.length
       (get_all_predictions
          (db (snd (predict Sample.env "eurusd" "m5" Sample.request
                      Sample.start))) 1 3 1) = 1%nat
  /\ match_date_to_period Sample.now_1017 "m5" 0
     = match_date_to_period Sample.now_1017 "m5" 4
  /\ map date
       (get_all_predictions
          (db (snd (predict Sample.ticking_env "eurusd" "m5" Sample.request
                      Sample.start))) 1 3 1)
     = map (fun us => mkdt (ymd2ord 2024 1 1) 10 17 0 us) [1; 2; 3; 4; 5]
  /\ map date
       (get_all_predictions
          (db (snd (predict Sample.crossing_env "eurusd" "h1" Sample.request
                      Sample.start))) 1 2 1)
     = map (fun h => make 2024 1 1 h 0 0 0) [10; 11; 13; 14; 15].
Proof. repeat split. Qed.

(** ** Refreshing a stale anchor *)





(** ** What a successful request tells *)

Section SuccessfulRequest.

Variable E : Env.

Lemma for_each_inv {A} (body : A -> M unit) (l : list A) :
  forall w w' u, for_each l body w = (inr u, w') ->
    forall i, In i l -> exists wa wb, body i wa = (inr tt, wb).
Proof.
  induction l as [| x l IH]; intros w w' u H i Hin; [ contradiction | ].
  cbn [for_each] in H. unfold bind in H.
  destruct (body x w) as [[e | []] w1] eqn:Hx; [ discriminate | ].
  destruct Hin as [<- | Hin]; [ eauto | ].
  exact (IH w1 w' u H i Hin).
Qed.

Lemma store_step_inv (period : string) (cp pe : Z)
    (lmo smo : option PredictionModel) (preds spreds : list float)
    (c : float) (i : nat) (wa wb : world) :
  store_step E period cp pe lmo smo preds spreds c i wa = (inr tt, wb) ->
  (i < List.length preds)%nat /\ (i < List.length spreds)%nat
  /\ exists sm, smo = Some sm.
Proof.
  unfold store_step, index. intros H. run_in H.
  destruct (nth_error preds i) eqn:Hp; run_in H; [ | discriminate ].
  destruct lmo; run_in H; [ | discriminate ].
  destruct (nth_error spreds i) eqn:Hs; run_in H; [ | discriminate ].
  destruct smo as [sm |]; run_in H; [ | discriminate ].
  split; [ apply nth_error_Some; congruence | ].
  split; [ apply nth_error_Some; congruence | eauto ].
Qed.

Lemma recompute_ok_inv (cpn pn : string) (rows : list OHLCData)
    (s : option float) (cp pe : Z) (lmo smo : option PredictionModel)
    (c : float) (w w' : world) (u : unit) :
  recompute E cpn pn rows s cp pe lmo smo c 5 w = (inr u, w') ->
  exists art sq sm,
    load_model_and_scaler E cpn pn = Some art
    /\ preprocess E rows art = inr sq
    /\ smo = Some sm
    /\ (5 <= List.length (get_multiple_predictions E sq art None))%nat
    /\ (5 <= List.length
               match s with
               | Some x => get_multiple_predictions E sq art (Some x)
               | None => get_multiple_predictions E sq art None
               end)%nat.
Proof.
  unfold recompute. intros H. run_in H.
  destruct (load_model_and_scaler E cpn pn) as [art |] eqn:Hart;
    [ | discriminate ].
  destruct (preprocess E rows art) as [e | sq] eqn:Hsq; run_in H;
    [ discriminate | ].
  exists art, sq.
  destruct s as [x |]; run_in H;
    match type of H with
    | context [for_each ?l ?b ?w0] =>
        destruct (for_each l b w0) as [[e | u0] w1] eqn:Hloop;
        [ discriminate | ];
        destruct (for_each_inv b l w0 w1 u0 Hloop 4%nat) as (wa & wb & Hstep);
        [ cbn; tauto | ];
        apply store_step_inv in Hstep as (Hp & Hs & sm & ->)
    end; exists sm; repeat split; try assumption; lia.
Qed.

(** A request that returned a response had known identifiers, both models
    and a bar; it was served from the cache, or its recompute found the
    artifact, built the sequences and got 5 values from every rollout. *)
Lemma predict_ok_inv (cpn pn : string) (req : PredictionRequest)
    (w w1 : world) (r1 : Response) :
  predict E cpn pn req w = (inr r1, w1) ->
  exists cpr per lm sm bar,
    get_currency_pair (db w) (upper cpn) = Some cpr
    /\ get_period (db w) (lower pn) = Some per
    /\ get_prediction_model (db w) "LSTM" = Some lm
    /\ get_prediction_model (db w) "LSTM_Sentiment" = Some sm
    /\ hd_error (rev (data req)) = Some bar
    /\ (cache_is_fresh
          (get_n_future_predictions (db w) (pair_id cpr) (period_id per)
             (model_id lm)
             (match_date_to_period (clock E (ticks w)) (lower pn) 0) 5)
          5 (Close bar) = true
        \/ cache_is_fresh
             (get_n_future_predictions (db w) (pair_id cpr) (period_id per)
                (model_id lm)
                (match_date_to_period (clock E (ticks w)) (lower pn) 0) 5)
             5 (Close bar) = false
           /\ exists art sq,
                load_model_and_scaler E (upper cpn) (lower pn) = Some art
                /\ preprocess E (data req) art = inr sq
                /\ (5 <= List.length
                           (get_multiple_predictions E sq art None))%nat
                /\ (5 <= List.length
                           match sentimentScore req with
                           | Some x =>
                               get_multiple_predictions E sq art (Some x)
                           | None => get_multiple_predictions E sq art None
                           end)%nat).
Proof.
  intros H.
  destruct (get_currency_pair (db w) (upper cpn)) as [cpr |] eqn:Hc.
  2:{ exfalso. revert H. unfold predict, except_clauses, predict_body. run.
      rewrite Hc. run. discriminate. }
  destruct (get_period (db w) (lower pn)) as [per |] eqn:Hp.
  2:{ exfalso. revert H. unfold predict, except_clauses, predict_body. run.
      rewrite Hc, Hp. run. discriminate. }
  destruct (hd_error (rev (data req))) as [bar |] eqn:Hb.
  2:{ exfalso. revert H.
      unfold predict, except_clauses, predict_body, last_close. run.
      rewrite Hc, Hp. destruct (rev (data req)); [ | discriminate Hb ].
      run. discriminate. }
  destruct (get_prediction_model (db w) "LSTM") as [lm |] eqn:Hl.
  2:{ exfalso. revert H.
      unfold predict, except_clauses, predict_body, last_close. run.
      rewrite Hc, Hp, Hl. destruct (rev (data req)); [ discriminate Hb | ].
      run. discriminate. }
  exists cpr, per, lm.
  destruct (cache_is_fresh
              (get_n_future_predictions (db w) (pair_id cpr) (period_id per)
                 (model_id lm)
                 (match_date_to_period (clock E (ticks w)) (lower pn) 0) 5)
              5 (Close bar)) eqn:Hf.
  - rewrite (predict_fresh E cpn pn req w cpr per lm bar Hc Hp Hl Hb Hf) in H.
    destruct (get_prediction_model (db w) "LSTM_Sentiment") as [sm |];
      [ | discriminate H ].
    exists sm, bar. auto 10.
  - rewrite (predict_stale E cpn pn req w cpr per lm bar Hc Hp Hl Hb Hf) in H.
    unfold except_clauses, bind in H.
    match type of H with
    | context [recompute ?a ?b ?c ?d ?e ?f ?g ?h ?i ?j ?k ?l] =>
        destruct (recompute a b c d e f g h i j k l) as [[e0 | u] w2] eqn:Hrec
    end.
    + destruct e0; discriminate H.
    + apply recompute_ok_inv in Hrec
        as (art & sq & sm & Hart & Hsq & Hsm & Hn & Hm).
      exists sm, bar. repeat split; try assumption.
      right. split; [ exact Hf | ]. exists art, sq. auto.
Qed.

End SuccessfulRequest.

Lemma apply_writes_lookups (cp pe : Z) (c : float) (ws : list write)
    (d0 : DB) (name : string) :
  get_currency_pair (apply_writes cp pe c ws d0) name
  = get_currency_pair d0 name
  /\ get_period (apply_writes cp pe c ws d0) name = get_period d0 name
  /\ get_prediction_model (apply_writes cp pe c ws d0) name
     = get_prediction_model d0 name.
Proof.
  unfold get_currency_pair, get_period, get_prediction_model.
  destruct (apply_writes_tables cp pe c ws d0) as (-> & -> & ->). auto.
Qed.

(** C4, as the code has it: for the periods 'd1' and 'h1', when the last
    Close is not NaN, a first request returned a response and the clock
    stays in one bucket over both requests, the same request made again is
    served from the cache: it calls neither the loader nor the model, stores
    nothing, and returns the series of the first response. *)
Theorem repeated_request_is_served_from_cache (E : Env) (cpn pn : string)
    (req : PredictionRequest) (w w1 : world) (r1 : Response) :
  aligned (lower pn) ->
  same_bucket E (lower pn) (ticks w) 6 ->
  (forall bar, hd_error (rev (data req)) = Some bar ->
               is_nan (Close bar) = false) ->
  predict E cpn pn req w = (inr r1, w1) ->
  predict E cpn pn req w1 = (inr r1, after_check w1)
  /\ calls (snd (predict E cpn pn req w1)) = calls w1
  /\ db (snd (predict E cpn pn req w1)) = db w1.
Proof.
  intros Hal Hbk Hnan H.
  enough (Hgoal : predict E cpn pn req w1 = (inr r1, after_check w1))
    by (rewrite Hgoal; auto).
  destruct (predict_ok_inv E cpn pn req w w1 r1 H)
    as (cpr & per & lm & sm & bar & Hc & Hp & Hl & Hs & Hb
        & [Hf | (Hf & art & sq & Hart & Hsq & Hn & Hm)]).
  - (* the first request was already served from the cache *)
    rewrite (predict_fresh E cpn pn req w cpr per lm bar Hc Hp Hl Hb Hf) in H.
    rewrite Hs in H. unfold except_clauses in H. rewrite respond_ok in H.
    injection H as <- <-.
    rewrite (predict_fresh E cpn pn req (after_check w) cpr per lm bar
               Hc Hp Hl Hb).
    + cbn [after_check db]. rewrite Hs. reflexivity.
    + cbn [after_check db ticks].
      rewrite <- (Nat.add_1_r (ticks w)), (Hbk 1%nat ltac:(lia)). exact Hf.
  - (* the first request recomputed *)
    pose proof (predict_recomputed E cpn pn req w cpr per lm sm bar art sq
                  Hc Hp Hl Hs Hb Hf Hart Hsq Hn Hm) as Hrun.
    rewrite (planned_writes_steady E (lower pn) (model_id lm) (model_id sm)
               _ _ (clock E (ticks w)) 5 0 (S (ticks w)) Hal) in Hrun.
    2:{ intros j Hj. rewrite <- (Hbk (S j) ltac:(lia)).
        now rewrite Nat.add_succ_r. }
    set (now := clock E (ticks w)) in *.
    set (ws := aligned_writes now (lower pn) (model_id lm) (model_id sm) _ _
                 0 5) in *.
    set (stored := apply_writes (pair_id cpr) (period_id per) (Close bar) ws
                     (db w)) in *.
    rewrite Hrun in H.
    assert (Hr1 : r1 = mkResponse
                    (series stored (pair_id cpr) (period_id per) (model_id lm))
                    (series stored (pair_id cpr) (period_id per) (model_id sm)))
      by congruence.
    pose proof (f_equal snd H) as Hw1. cbn [snd] in Hw1.
    assert (Hdb : db w1 = stored) by (rewrite <- Hw1; reflexivity).
    assert (Hticks : ticks w1 = (ticks w + 6)%nat)
      by (rewrite <- Hw1; cbn [ticks]; lia).
    clear H Hw1 Hrun.
    destruct (apply_writes_lookups (pair_id cpr) (period_id per) (Close bar)
                ws (db w) (upper cpn)) as (Hc' & _ & _).
    destruct (apply_writes_lookups (pair_id cpr) (period_id per) (Close bar)
                ws (db w) (lower pn)) as (_ & Hp' & _).
    destruct (apply_writes_lookups (pair_id cpr) (period_id per) (Close bar)
                ws (db w) "LSTM") as (_ & _ & Hl').
    destruct (apply_writes_lookups (pair_id cpr) (period_id per) (Close bar)
                ws (db w) "LSTM_Sentiment") as (_ & _ & Hs').
    fold stored in Hc', Hp', Hl', Hs'.
    rewrite Hc in Hc'. rewrite Hp in Hp'. rewrite Hl in Hl'.
    rewrite Hs in Hs'.
    assert (Hwritten : forall k, (k < 5)%nat ->
              stored_with_anchor stored (pair_id cpr) (period_id per)
                (model_id lm)
                (match_date_to_period now (lower pn) (Z.of_nat k))
                (Close bar)).
    { intros k Hk.
      destruct (aligned_writes_in now (lower pn) (model_id lm) (model_id sm)
                  (get_multiple_predictions E sq art None)
                  match sentimentScore req with
                  | Some x => get_multiple_predictions E sq art (Some x)
                  | None => get_multiple_predictions E sq art None
                  end 0 5 k ltac:(lia)) as [Hin _].
      exact (anchor_apply_writes (pair_id cpr) (period_id per) (Close bar)
               ws (db w) _ Hin). }
    clearbody stored. rewrite <- Hdb in Hc', Hp', Hl', Hs', Hr1.
    assert (Hfresh : cache_is_fresh
              (get_n_future_predictions (db w1) (pair_id cpr) (period_id per)
                 (model_id lm)
                 (match_date_to_period (clock E (ticks w1)) (lower pn) 0) 5)
              5 (Close bar) = true).
    { rewrite Hticks, (Hbk 6%nat ltac:(lia)), Hdb. fold now.
      apply (fresh_when_stored stored (pair_id cpr) (period_id per)
               (model_id lm) (Close bar) _
               (map (fun k => match_date_to_period now (lower pn) (Z.of_nat k))
                    (seq 0 5))).
      - apply float_eqb_refl, Hnan, Hb.
      - apply Injective_map_NoDup; [ | apply seq_NoDup ].
        intros i j Hij. exact (target_inj now (lower pn) Hal i j Hij).
      - rewrite length_map, length_seq. lia.
      - lia.
      - exact (Hwritten 0%nat ltac:(lia)).
      - intros d Hd. apply in_map_iff in Hd as (k & <- & Hk).
        apply in_seq in Hk. split.
        + apply match_date_le; [ exact Hal | lia ].
        + destruct (Hwritten k ltac:(lia)) as (r & Hr & _). eauto. }
    rewrite (predict_fresh E cpn pn req w1 cpr per lm bar Hc' Hp' Hl' Hb
               Hfresh).
    rewrite Hs', Hr1. reflexivity.
Qed.

Lemma repeated_request_is_served_from_cache_witness :
  calls (snd (predict Sample.env "eurusd" "H1" Sample.request
                Sample.after_first))
  = calls Sample.after_first.
Proof.
  refine (proj1 (proj2 (repeated_request_is_served_from_cache Sample.env
            "eurusd" "H1" Sample.request Sample.start Sample.after_first
            (mkResponse
               (series (db Sample.after_first) 1 2 1)
               (series (db Sample.after_first) 1 2 2))
            _ _ _ _))).
  - right. reflexivity.
  - intros j _. reflexivity.
  - intros bar Hbar. injection Hbar as <-. reflexivity.
  - vm_compute. reflexivity.
Defined.

(** C4 as stated fails for a stored period that is neither 'd1' nor 'h1':
    even under a stopped clock the first request leaves one stored row per
    variant, so the same request made again finds fewer than 5 and rolls
    the model out again.  It also fails for 'h1' when the last Close is NaN,
    which equals no stored anchor, not even itself. *)
Lemma repeated_request_recomputes_unaligned_period :
  (exists response,
     fst (predict Sample.env "eurusd" "m5" Sample.request Sample.start)
     = inr response)
  /\ calls (snd (predict Sample.env "eurusd" "m5" Sample.request
                   (snd (predict Sample.env "eurusd" "m5" Sample.request
                           Sample.start))))
     = (calls (snd (predict Sample.env "eurusd" "m5" Sample.request
                      Sample.start))
        ++ [LoadModelAndScaler "EURUSD" "m5"; GetMultiplePredictions None])%list
  /\ (exists response,
        fst (predict Sample.env "eurusd" "h1" Sample.request_nan Sample.start)
        = inr response)
  /\ calls (snd (predict Sample.env "eurusd" "h1" Sample.request_nan
                   (snd (predict Sample.env "eurusd" "h1" Sample.request_nan
                           Sample.start))))
     = (calls (snd (predict Sample.env "eurusd" "h1" Sample.request_nan
                      Sample.start))
        ++ [LoadModelAndScaler "EURUSD" "h1"; GetMultiplePredictions None])%list.
Proof.
  split; [ eexists; vm_compute; reflexivity | ].
  split; [ vm_compute; reflexivity | ].
  split; [ eexists; vm_compute; reflexivity | vm_compute; reflexivity ].
Qed.

(** ** Further properties of [match_date_to_period] *)





(** X3: two well-formed clock readings give the same 'h1' targets at every
    offset exactly when they lie in the same hour of the same day. *)
Theorem h1_targets_depend_on_the_hour_only (a b : datetime) :
  wf a -> wf b ->
  (forall k, match_date_to_period a "h1" k = match_date_to_period b "h1" k)
  <-> ordinal a = ordinal b /\ hour a = hour b.
Proof.
  intros Ha Hb. split.
  - intros H. specialize (H 0).
    rewrite !match_date_h1_0 in H
      by (destruct Ha as (? & _), Hb as (? & _); assumption).
    injection H as Ho Hh. auto.
  - intros [Ho Hh] k.
    apply match_date_same_bucket; [ now right | ].
    rewrite !match_date_h1_0
      by (destruct Ha as (? & _), Hb as (? & _); assumption).
    now rewrite Ho, Hh.
Qed.

Lemma h1_targets_depend_on_the_hour_only_witness :
  match_date_to_period Sample.now_1017 "h1" 2
  = match_date_to_period (make 2024 1 1 10 59 59 999999) "h1" 2.
Proof.
  apply (h1_targets_depend_on_the_hour_only Sample.now_1017
           (make 2024 1 1 10 59 59 999999)).
  - unfold wf; cbn; lia.
  - unfold wf; cbn; lia.
  - split; reflexivity.
Defined.

(** X4: two clock readings give the same 'd1' targets at every offset
    exactly when they lie on the same day. *)
Theorem d1_targets_depend_on_the_day_only (a b : datetime) :
  (forall k, match_date_to_period a "d1" k = match_date_to_period b "d1" k)
  <-> ordinal a = ordinal b.
Proof.
  split.
  - intros H. specialize (H 0). rewrite !match_date_d1 in H.
    injection H as H. lia.
  - intros H k. now rewrite !match_date_d1, H.
Qed.

(** X5: for 'd1' and 'h1' the offsets add up: the target of offset j + k is
    the target of offset j moved by k whole periods. *)
Theorem aligned_offsets_add_up (now : datetime) (j k : Z) :
  match_date_to_period now "h1" (j + k)
  = add (match_date_to_period now "h1" j) (DateOffset_hours k)
  /\ match_date_to_period now "d1" (j + k)
     = add (match_date_to_period now "d1" j) (DateOffset_days k).
Proof.
  split.
  - unfold match_date_to_period; cbn [String.eqb Ascii.eqb Bool.eqb].
    unfold add. rewrite to_of_micros. f_equal.
    unfold DateOffset_hours. lia.
  - unfold match_date_to_period; cbn [String.eqb Ascii.eqb Bool.eqb].
    unfold add. rewrite to_of_micros. f_equal.
    unfold DateOffset_days. lia.
Qed.

(** ** What any request does to the world

    Every path through the handler, failing ones included, is a sequence of
    clock readings, pipeline calls and upserts under the pair and period of
    the request.  A relation between worlds that is reflexive, transitive
    and kept by these three steps therefore relates the world before a
    request to the world after it. *)
Section Steps.

Variable E : Env.
Variable R : world -> world -> Prop.

Hypothesis R_refl : forall w, R w w.
Hypothesis R_trans : forall a b c, R a b -> R b c -> R a c.
Hypothesis R_tick : forall w, R w (mkWorld (db w) (S (ticks w)) (calls w)).
Hypothesis R_record :
  forall w e, R w (mkWorld (db w) (ticks w) (calls w ++ [e])%list).

Section UnderOneKey.

Variables cp pe : Z.

Hypothesis R_upsert :
  forall w mo v l d,
    R w (mkWorld (upsert_row (db w) cp pe mo v l d) (ticks w) (calls w)).

Lemma store_step_steps (period : string) (lmo smo : option PredictionModel)
    (preds spreds : list float) (c : float) (i : nat) (w : world) :
  R w (snd (store_step E period cp pe lmo smo preds spreds c i w)).
Proof.
  unfold store_step, index. run.
  destruct (nth_error preds i) as [v |]; run; [ | apply R_tick ].
  destruct lmo as [lm |]; run; [ | apply R_tick ].
  apply (R_trans _ _ _ (R_tick w)).
  destruct (nth_error spreds i) as [v' |]; run;
    [ | exact (R_upsert (mkWorld (db w) (S (ticks w)) (calls w)) _ _ _ _) ].
  destruct smo as [sm |]; run;
    [ | exact (R_upsert (mkWorld (db w) (S (ticks w)) (calls w)) _ _ _ _) ].
  apply (R_trans _ _ _
           (R_upsert (mkWorld (db w) (S (ticks w)) (calls w)) (model_id lm) v c
              (match_date_to_period (clock E (ticks w)) period (Z.of_nat i)))).
  exact (R_upsert (mkWorld _ (S (ticks w)) (calls w)) _ _ _ _).
Qed.

Lemma store_loop_steps (period : string) (lmo smo : option PredictionModel)
    (preds spreds : list float) (c : float) (l : list nat) :
  forall w,
    R w (snd (for_each l
                (store_step E period cp pe lmo smo preds spreds c) w)).
Proof.
  induction l as [| i l IH]; intros w; [ apply R_refl | ].
  cbn [for_each]. unfold bind.
  pose proof (store_step_steps period lmo smo preds spreds c i w) as Hs.
  destruct (store_step E period cp pe lmo smo preds spreds c i w)
    as [[e | u] w1]; cbn [snd] in *; [ exact Hs | ].
  exact (R_trans _ _ _ Hs (IH w1)).
Qed.

Lemma recompute_steps (cpn pn : string) (rows : list OHLCData)
    (s : option float) (lmo smo : option PredictionModel) (c : float)
    (n : nat) (w : world) :
  R w (snd (recompute E cpn pn rows s cp pe lmo smo c n w)).
Proof.
  unfold recompute. run.
  apply (R_trans _ _ _ (R_record w (LoadModelAndScaler cpn pn))).
  destruct (load_model_and_scaler E cpn pn) as [art |]; [ | apply R_refl ].
  destruct (preprocess E rows art) as [e | sq]; run; [ apply R_refl | ].
  eapply R_trans; [ apply R_record | ]. cbn [db ticks calls].
  destruct s as [x |]; run.
  - eapply R_trans; [ apply R_record | ]. cbn [db ticks calls].
    match goal with
    | |- context [for_each ?l (store_step _ _ _ _ _ _ ?p ?q _) ?w0] =>
        pose proof (store_loop_steps pn lmo smo p q c l w0) as H;
        destruct (for_each l (store_step E pn cp pe lmo smo p q c) w0)
          as [[e | u] w1]
    end; exact H.
  - match goal with
    | |- context [for_each ?l (store_step _ _ _ _ _ _ ?p ?q _) ?w0] =>
        pose proof (store_loop_steps pn lmo smo p q c l w0) as H;
        destruct (for_each l (store_step E pn cp pe lmo smo p q c) w0)
          as [[e | u] w1]
    end; exact H.
Qed.

End UnderOneKey.

Variables (cpn pn : string) (req : PredictionRequest) (w : world).

Hypothesis R_upsert_found :
  forall cpr per,
    get_currency_pair (db w) (upper cpn) = Some cpr ->
    get_period (db w) (lower pn) = Some per ->
    forall w' mo v l d,
      R w' (mkWorld (upsert_row (db w') (pair_id cpr) (period_id per) mo v l d)
              (ticks w') (calls w')).

Lemma predict_steps : R w (snd (predict E cpn pn req w)).
Proof.
  unfold predict. rewrite except_clauses_world.
  destruct (get_currency_pair (db w) (upper cpn)) as [cpr |] eqn:Hc.
  2:{ unfold predict_body. run. rewrite Hc. run. apply R_refl. }
  destruct (get_period (db w) (lower pn)) as [per |] eqn:Hp.
  2:{ unfold predict_body. run. rewrite Hc, Hp. run. apply R_refl. }
  destruct (hd_error (rev (data req))) as [bar |] eqn:Hb.
  2:{ unfold predict_body, last_close. run. rewrite Hc, Hp.
      destruct (rev (data req)); [ | discriminate Hb ]. run. apply R_refl. }
  destruct (get_prediction_model (db w) "LSTM") as [lm |] eqn:Hl.
  2:{ unfold predict_body, last_close. run. rewrite Hc, Hp, Hl.
      destruct (rev (data req)); [ discriminate Hb | ]. run. apply R_tick. }
  rewrite (predict_body_reaches_check E cpn pn req w cpr per lm bar Hc Hp Hl Hb).
  rewrite then_respond_world.
  apply (R_trans _ _ _ (R_tick w)). fold (after_check w).
  match goal with
  | |- context [if ?b then _ else _] => destruct b
  end; [ | apply R_refl ].
  apply recompute_steps. exact (R_upsert_found cpr per eq_refl eq_refl).
Qed.

End Steps.

(** ** One upsert and the rest of the table *)

Lemma upsert_row_tables (d0 : DB) (cp pe mo : Z) (v l : float) (d : datetime) :
  currency_pairs (upsert_row d0 cp pe mo v l d) = currency_pairs d0
  /\ Storage.periods (upsert_row d0 cp pe mo v l d) = Storage.periods d0
  /\ prediction_models (upsert_row d0 cp pe mo v l d) = prediction_models d0.
Proof.
  unfold upsert_row.
  destruct (get_prediction_by_date d0 cp pe mo d); auto.
Qed.

Lemma upsert_row_length (d0 : DB) (cp pe mo : Z) (v l : float) (d : datetime) :
  (List.length (predictions d0)
   <= List.length (predictions (upsert_row d0 cp pe mo v l d)))%nat.
Proof.
  destruct (upsert_row_by_key d0 cp pe mo v l d) as (_ & Hnew & Hold).
  destruct (get_prediction_by_date d0 cp pe mo d) as [e |].
  - rewrite (Hold e eq_refl). lia.
  - rewrite (Hnew eq_refl), length_app. lia.
Qed.

Lemma update_first_keys (f : Prediction -> bool)
    (g : Prediction -> Prediction) (l : list Prediction) :
  (forall x, prediction_key (g x) = prediction_key x) ->
  map prediction_key (update_first f g l) = map prediction_key l.
Proof.
  intros Hg. induction l as [| x l IH]; cbn; [ reflexivity | ].
  destruct (f x); cbn; now rewrite ?Hg, ?IH.
Qed.

Lemma has_key_prediction_key (cp pe mo : Z) (d : datetime) (r : Prediction) :
  has_key cp pe mo d r = true <-> prediction_key r = (cp, pe, mo, d).
Proof.
  rewrite has_key_iff. unfold prediction_key. split.
  - intros (-> & -> & -> & ->). reflexivity.
  - intros [= -> -> -> ->]. auto.
Qed.

(** The keys of the table after an upsert: unchanged when the key was
    stored, one more at the end when it was not. *)
Lemma upsert_row_keys (d0 : DB) (cp pe mo : Z) (v l : float) (d : datetime) :
  map prediction_key (predictions (upsert_row d0 cp pe mo v l d))
  = if existsb (has_key cp pe mo d) (predictions d0)
    then map prediction_key (predictions d0)
    else (map prediction_key (predictions d0) ++ [(cp, pe, mo, d)])%list.
Proof.
  unfold upsert_row, get_prediction_by_date.
  destruct (find (has_key cp pe mo d) (predictions d0)) as [e |] eqn:He.
  - assert (Hex : existsb (has_key cp pe mo d) (predictions d0) = true).
    { apply existsb_exists. exists e. now apply find_some in He. }
    rewrite Hex. unfold update_prediction; cbn [predictions with_predictions].
    apply update_first_keys. reflexivity.
  - assert (Hex : existsb (has_key cp pe mo d) (predictions d0) = false).
    { destruct (existsb (has_key cp pe mo d) (predictions d0)) eqn:Hx;
        [ | reflexivity ].
      apply existsb_exists in Hx as (x & Hin & Hx).
      now rewrite (find_none _ _ He x Hin) in Hx. }
    rewrite Hex. unfold create_prediction; cbn [predictions with_predictions].
    now rewrite map_app.
Qed.

Lemma upsert_row_nodup (d0 : DB) (cp pe mo : Z) (v l : float) (d : datetime) :
  NoDup (map prediction_key (predictions d0)) ->
  NoDup (map prediction_key (predictions (upsert_row d0 cp pe mo v l d))).
Proof.
  intros Hnd. rewrite upsert_row_keys.
  destruct (existsb (has_key cp pe mo d) (predictions d0)) eqn:Hx;
    [ exact Hnd | ].
  apply NoDup_app; [ exact Hnd | repeat constructor; intros [] | ].
  intros k Hk [<- | []].
  apply in_map_iff in Hk as (x & Hkey & Hin).
  apply has_key_prediction_key in Hkey.
  assert (Ht : existsb (has_key cp pe mo d) (predictions d0) = true)
    by (apply existsb_exists; eauto).
  congruence.
Qed.

Lemma filter_update_first (p f : Prediction -> bool)
    (g : Prediction -> Prediction) (l : list Prediction) :
  (forall x, f x = true -> p x = false /\ p (g x) = false) ->
  filter p (update_first f g l) = filter p l.
Proof.
  intros H. induction l as [| x l IH]; cbn; [ reflexivity | ].
  destruct (f x) eqn:Hx; cbn.
  - destruct (H x Hx) as [-> ->]. reflexivity.
  - now rewrite IH.
Qed.

(** An upsert under one pair and period leaves the rows of every other
    pair or period as they are. *)
Lemma upsert_row_other_series (d0 : DB) (cp pe mo : Z) (v l : float)
    (d : datetime) (cp' pe' mo' : Z) :
  (cp', pe') <> (cp, pe) ->
  get_all_predictions (upsert_row d0 cp pe mo v l d) cp' pe' mo'
  = get_all_predictions d0 cp' pe' mo'.
Proof.
  intros Hne.
  assert (Hoff : forall r, p_pair r = cp -> p_period r = pe ->
                   of_triple cp' pe' mo' r = false).
  { intros r Hc Hp. unfold of_triple.
    destruct (p_pair r =? cp') eqn:E1; [ | reflexivity ].
    destruct (p_period r =? pe') eqn:E2; [ | reflexivity ].
    apply Z.eqb_eq in E1, E2. exfalso. apply Hne. congruence. }
  unfold get_all_predictions, upsert_row.
  destruct (get_prediction_by_date d0 cp pe mo d) as [e |] eqn:He.
  - unfold get_prediction_by_date in He.
    pose proof (find_some _ _ He) as [_ Hk].
    apply has_key_iff in Hk as (K1 & K2 & K3 & K4).
    unfold update_prediction; cbn [predictions with_predictions].
    apply filter_update_first. intros x Hx.
    apply has_key_iff in Hx as (X1 & X2 & _).
    split; apply Hoff; cbn; congruence.
  - unfold create_prediction; cbn [predictions with_predictions].
    rewrite filter_app. cbn [filter].
    rewrite (Hoff (mkPrediction cp pe mo v l d) eq_refl eq_refl).
    apply app_nil_r.
Qed.

(** ** Invariants of [predict] *)

(** X6: whatever its outcome, a request leaves the tables of currency
    pairs, periods and prediction models as they were. *)
Theorem predict_keeps_the_reference_tables (E : Env) (cpn pn : string)
    (req : PredictionRequest) (w : world) :
  currency_pairs (db (snd (predict E cpn pn req w))) = currency_pairs (db w)
  /\ Storage.periods (db (snd (predict E cpn pn req w)))
     = Storage.periods (db w)
  /\ prediction_models (db (snd (predict E cpn pn req w)))
     = prediction_models (db w).
Proof.
  apply (predict_steps E
           (fun a b => currency_pairs (db b) = currency_pairs (db a)
                       /\ Storage.periods (db b) = Storage.periods (db a)
                       /\ prediction_models (db b) = prediction_models (db a))).
  - auto.
  - intros a b c (H1 & H2 & H3) (H4 & H5 & H6). repeat split; congruence.
  - intros a. cbn. auto.
  - intros a e. cbn. auto.
  - intros cpr per _ _ a mo v l d. cbn [db]. apply upsert_row_tables.
Qed.

(** X7: whatever its outcome, a request deletes no prediction: every key
    stored before is stored after, and the table has at least as many
    rows. *)
Theorem predict_never_deletes (E : Env) (cpn pn : string)
    (req : PredictionRequest) (w : world) :
  (forall cp pe mo d r,
     get_prediction_by_date (db w) cp pe mo d = Some r ->
     exists r',
       get_prediction_by_date (db (snd (predict E cpn pn req w))) cp pe mo d
       = Some r')
  /\ (List.length (predictions (db w))
      <= List.length (predictions (db (snd (predict E cpn pn req w)))))%nat.
Proof.
  apply (predict_steps E
           (fun a b =>
              (forall cp pe mo d r,
                 get_prediction_by_date (db a) cp pe mo d = Some r ->
                 exists r', get_prediction_by_date (db b) cp pe mo d = Some r')
              /\ (List.length (predictions (db a))
                  <= List.length (predictions (db b)))%nat)).
  - intros a. split; [ eauto | lia ].
  - intros a b c [H1 L1] [H2 L2]. split; [ | lia ].
    intros cp pe mo d r Hr. destruct (H1 _ _ _ _ _ Hr) as [r' Hr']. eauto.
  - intros a. cbn. split; [ eauto | lia ].
  - intros a e. cbn. split; [ eauto | lia ].
  - intros cpr per _ _ a mo v l d. cbn [db]. split.
    + intros cp pe mo' d' r Hr. rewrite lookup_upsert.
      destruct (has_key cp pe mo' d'
                  (mkPrediction (pair_id cpr) (period_id per) mo v l d));
        eauto.
    + apply upsert_row_length.
Qed.

Lemma predict_never_deletes_witness :
  exists r',
    get_prediction_by_date
      (db (snd (predict Sample.env "eurusd" "h1" Sample.request_moved
                  Sample.after_first)))
      1 2 1 (make 2024 1 1 10 0 0 0)
    = Some r'.
Proof.
  refine (proj1 (predict_never_deletes Sample.env "eurusd" "h1"
                   Sample.request_moved Sample.after_first)
            1 2 1 (make 2024 1 1 10 0 0 0)
            (mkPrediction 1 2 1 (Sample.fl 5 (-2)) (Sample.fl 5 (-2))
               (make 2024 1 1 10 0 0 0)) _).
  vm_compute. reflexivity.
Defined.

(** X8: whatever its outcome, a request keeps the prediction keys unique:
    when no two stored rows share (pair, period, model, date) before, none
    do after. *)
Theorem predict_keeps_keys_unique (E : Env) (cpn pn : string)
    (req : PredictionRequest) (w : world) :
  NoDup (map prediction_key (predictions (db w))) ->
  NoDup (map prediction_key
           (predictions (db (snd (predict E cpn pn req w))))).
Proof.
  apply (predict_steps E
           (fun a b =>
              NoDup (map prediction_key (predictions (db a))) ->
              NoDup (map prediction_key (predictions (db b))))).
  - auto.
  - auto.
  - intros a. cbn. auto.
  - intros a e. cbn. auto.
  - intros cpr per _ _ a mo v l d. cbn [db]. apply upsert_row_nodup.
Qed.

Lemma predict_keeps_keys_unique_witness :
  NoDup (map prediction_key
           (predictions
              (db (snd (predict Sample.env "eurusd" "h1" Sample.request
                          Sample.start))))).
Proof.
  apply (predict_keeps_keys_unique Sample.env "eurusd" "h1" Sample.request
           Sample.start).
  cbn. constructor.
Defined.

(** X9: whatever its outcome, a request changes no stored series but those
    of its own pair and period. *)
Theorem predict_touches_its_own_series_only (E : Env) (cpn pn : string)
    (req : PredictionRequest) (w : world) (cp' pe' mo' : Z) :
  (forall cpr per,
     get_currency_pair (db w) (upper cpn) = Some cpr ->
     get_period (db w) (lower pn) = Some per ->
     (cp', pe') <> (pair_id cpr, period_id per)) ->
  get_all_predictions (db (snd (predict E cpn pn req w))) cp' pe' mo'
  = get_all_predictions (db w) cp' pe' mo'.
Proof.
  intros Hother.
  apply (predict_steps E
           (fun a b => get_all_predictions (db b) cp' pe' mo'
                       = get_all_predictions (db a) cp' pe' mo')).
  - reflexivity.
  - intros a b c H1 H2. congruence.
  - reflexivity.
  - reflexivity.
  - intros cpr per Hc Hp a mo v l d. cbn [db].
    apply upsert_row_other_series. exact (Hother cpr per Hc Hp).
Qed.

Lemma predict_touches_its_own_series_only_witness :
  get_all_predictions
    (db (snd (predict Sample.env "eurusd" "d1" Sample.request
                Sample.after_first))) 1 2 1
  = get_all_predictions (db Sample.after_first) 1 2 1.
Proof.
  apply (predict_touches_its_own_series_only Sample.env "eurusd" "d1"
           Sample.request Sample.after_first 1 2 1).
  intros cpr per Hc Hp. vm_compute in Hc, Hp.
  injection Hc as <-. injection Hp as <-. cbn. discriminate.
Defined.

(** ** Failures of [predict] *)
Section Failures.

Variable E : Env.

Lemma store_step_error (period : string) (cp pe : Z)
    (lmo smo : option PredictionModel) (preds spreds : list float)
    (c : float) (i : nat) (w w' : world) (e : exn) :
  store_step E period cp pe lmo smo preds spreds c i w = (inl e, w') ->
  e = IndexError \/ e = AttributeError.
Proof.
  unfold store_step, index. intros H. run_in H.
  destruct (nth_error preds i); run_in H;
    [ | injection H as <- _; now left ].
  destruct lmo; run_in H; [ | injection H as <- _; now right ].
  destruct (nth_error spreds i); run_in H;
    [ | injection H as <- _; now left ].
  destruct smo; run_in H; [ discriminate H | injection H as <- _; now right ].
Qed.

Lemma store_loop_error (period : string) (cp pe : Z)
    (lmo smo : option PredictionModel) (preds spreds : list float)
    (c : float) (l : list nat) :
  forall w w' e,
    for_each l (store_step E period cp pe lmo smo preds spreds c) w
    = (inl e, w') ->
    e = IndexError \/ e = AttributeError.
Proof.
  induction l as [| i l IH]; intros w w' e H; [ discriminate H | ].
  cbn [for_each] in H. unfold bind in H.
  destruct (store_step E period cp pe lmo smo preds spreds c i w)
    as [[e0 | u] w1] eqn:Hs.
  - injection H as <- _. exact (store_step_error _ _ _ _ _ _ _ _ _ _ _ _ Hs).
  - exact (IH w1 w' e H).
Qed.

(** The recompute branch fails in three ways: the artifact is missing, the
    preprocessing raises, or the storing loop runs out of predictions or of
    a model row. *)
Lemma recompute_error (cpn pn : string) (rows : list OHLCData)
    (s : option float) (cp pe : Z) (lmo smo : option PredictionModel)
    (c : float) (n : nat) (w w' : world) (e : exn) :
  recompute E cpn pn rows s cp pe lmo smo c n w = (inl e, w') ->
  (load_model_and_scaler E cpn pn = None /\ e = FileNotFoundError)
  \/ exists art,
       load_model_and_scaler E cpn pn = Some art
       /\ (preprocess E rows art = inl e
           \/ (exists sq, preprocess E rows art = inr sq)
              /\ (e = IndexError \/ e = AttributeError)).
Proof.
  unfold recompute. intros H. run_in H.
  destruct (load_model_and_scaler E cpn pn) as [art |];
    [ | injection H as <- _; now left ].
  right. exists art. split; [ reflexivity | ].
  destruct (preprocess E rows art) as [e0 | sq]; run_in H;
    [ injection H as <- _; now left | ].
  right. split; [ eauto | ].
  destruct s as [x |]; run_in H;
    match type of H with
    | context [for_each ?l ?b ?w0] =>
        destruct (for_each l b w0) as [[e1 | u] w1] eqn:Hloop;
        [ injection H as <- _; exact (store_loop_error _ _ _ _ _ _ _ _ _ _ _ _ Hloop)
        | discriminate H ]
    end.
Qed.

Lemma except_clauses_status {A} (c : M A) (w : world) (e : exn) :
  fst (except_clauses c w) = inl e ->
  (e = HTTPException 404 /\ fst (c w) = inl FileNotFoundError)
  \/ (e = HTTPException 500 /\ exists e0, fst (c w) = inl e0
                                         /\ e0 <> FileNotFoundError).
Proof.
  unfold except_clauses. destruct (c w) as [[e0 | a] w1]; cbn [fst];
    [ | discriminate ].
  destruct e0; intros [= <-];
    first [ left; split; reflexivity
          | right; split; [ reflexivity | eexists; split;
                            [ reflexivity | discriminate ] ] ].
Qed.

(** A 404 comes from the recompute branch alone: the identifiers and the
    plain model are known, the request has a bar, the cache is stale, and
    the artifact is missing or the preprocessing raised the
    [FileNotFoundError] itself. *)
Lemma predict_404_inv (cpn pn : string) (req : PredictionRequest) (w : world) :
  fst (predict E cpn pn req w) = inl (HTTPException 404) ->
  exists cpr per lm bar,
    get_currency_pair (db w) (upper cpn) = Some cpr
    /\ get_period (db w) (lower pn) = Some per
    /\ get_prediction_model (db w) "LSTM" = Some lm
    /\ hd_error (rev (data req)) = Some bar
    /\ cache_is_fresh
         (get_n_future_predictions (db w) (pair_id cpr) (period_id per)
            (model_id lm)
            (match_date_to_period (clock E (ticks w)) (lower pn) 0) 5)
         5 (Close bar) = false
    /\ (load_model_and_scaler E (upper cpn) (lower pn) = None
        \/ exists art,
             load_model_and_scaler E (upper cpn) (lower pn) = Some art
             /\ preprocess E (data req) art = inl FileNotFoundError).
Proof.
  intros H.
  destruct (get_currency_pair (db w) (upper cpn)) as [cpr |] eqn:Hc.
  2:{ exfalso. revert H. unfold predict, except_clauses, predict_body. run.
      rewrite Hc. run. discriminate. }
  destruct (get_period (db w) (lower pn)) as [per |] eqn:Hp.
  2:{ exfalso. revert H. unfold predict, except_clauses, predict_body. run.
      rewrite Hc, Hp. run. discriminate. }
  destruct (hd_error (rev (data req))) as [bar |] eqn:Hb.
  2:{ exfalso. revert H.
      unfold predict, except_clauses, predict_body, last_close. run.
      rewrite Hc, Hp. destruct (rev (data req)); [ | discriminate Hb ].
      run. discriminate. }
  destruct (get_prediction_model (db w) "LSTM") as [lm |] eqn:Hl.
  2:{ exfalso. revert H.
      unfold predict, except_clauses, predict_body, last_close. run.
      rewrite Hc, Hp, Hl. destruct (rev (data req)); [ discriminate Hb | ].
      run. discriminate. }
  exists cpr, per, lm, bar.
  destruct (cache_is_fresh
              (get_n_future_predictions (db w) (pair_id cpr) (period_id per)
                 (model_id lm)
                 (match_date_to_period (clock E (ticks w)) (lower pn) 0) 5)
              5 (Close bar)) eqn:Hf.
  - exfalso.
    rewrite (predict_fresh E cpn pn req w cpr per lm bar Hc Hp Hl Hb Hf) in H.
    destruct (get_prediction_model (db w) "LSTM_Sentiment");
      discriminate H.
  - repeat split; try reflexivity.
    rewrite (predict_stale E cpn pn req w cpr per lm bar Hc Hp Hl Hb Hf) in H.
    unfold except_clauses, bind in H.
    match type of H with
    | context [recompute ?a ?b ?c ?d ?e ?f ?g ?h ?i ?j ?k ?l] =>
        destruct (recompute a b c d e f g h i j k l) as [[e0 | u] w2] eqn:Hrec
    end.
    + destruct e0; try discriminate H.
      apply recompute_error in Hrec
        as [[Hnone _] | (art & Hart & [Hpre | [_ [Hx | Hx]]])];
        try discriminate Hx; eauto.
    + destruct (get_prediction_model (db w) "LSTM_Sentiment");
        discriminate H.
Qed.

End Failures.

(** X10: a failing request is answered 500 or 404, never 400; and a 404 is
    answered only after the recompute branch has asked for the artifact of
    the normalised pair and period. *)
Theorem predict_fails_with_500_or_404 (E : Env) (cpn pn : string)
    (req : PredictionRequest) (w : world) (e : exn) :
  fst (predict E cpn pn req w) = inl e ->
  (e = HTTPException 500 \/ e = HTTPException 404)
  /\ (e = HTTPException 404 ->
      exists evs,
        calls (snd (predict E cpn pn req w))
        = (calls w ++ LoadModelAndScaler (upper cpn) (lower pn) :: evs)%list).
Proof.
  intros H. split.
  - unfold predict in H.
    apply except_clauses_status in H as [[-> _] | [-> _]]; auto.
  - intros ->.
    destruct (predict_404_inv E cpn pn req w H)
      as (cpr & per & lm & bar & Hc & Hp & Hl & Hb & Hf & _).
    rewrite (predict_stale E cpn pn req w cpr per lm bar Hc Hp Hl Hb Hf).
    rewrite except_clauses_world, then_respond_world.
    change (calls w) with (calls (after_check w)).
    apply recompute_calls.
Qed.

Lemma predict_fails_with_500_or_404_witness :
  exists evs,
    calls (snd (predict Sample.env "gbpusd" "d1" Sample.request Sample.start))
    = (calls Sample.start
       ++ LoadModelAndScaler (upper "gbpusd") (lower "d1") :: evs)%list.
Proof.
  refine (proj2 (predict_fails_with_500_or_404 Sample.env "gbpusd" "d1"
                   Sample.request Sample.start (HTTPException 404) _)
            eq_refl).
  reflexivity.
Defined.

(** X11: a request without bars is answered 500 whatever its identifiers;
    the clock is not read, the pipeline is not called and nothing is
    stored. *)
Theorem predict_without_bars_is_500 (E : Env) (cpn pn : string)
    (s : option float) (w : world) :
  predict E cpn pn (mkRequest [] s) w = (inl (HTTPException 500), w).
Proof.
  unfold predict, except_clauses, predict_body, last_close. run.
  destruct (get_currency_pair (db w) (upper cpn)); run;
    [ | now destruct w ].
  destruct (get_period (db w) (lower pn)); run; now destruct w.
Qed.

(** X12: a request is answered with a response only when its pair, its
    period and both model rows are stored and it has a bar.  The response
    then lists, for both variants, the value and the date of every row of
    the triple that is stored after the call, in storage order; and the
    call either was served from the cache,
    changing nothing but one clock reading, or recomputed, reading the clock
    six times and asking for the artifact and for the plain rollout. *)
Theorem predict_response_is_the_stored_series (E : Env) (cpn pn : string)
    (req : PredictionRequest) (w w1 : world) (r1 : Response) :
  predict E cpn pn req w = (inr r1, w1) ->
  exists cpr per lm sm,
    get_currency_pair (db w) (upper cpn) = Some cpr
    /\ get_period (db w) (lower pn) = Some per
    /\ get_prediction_model (db w) "LSTM" = Some lm
    /\ get_prediction_model (db w) "LSTM_Sentiment" = Some sm
    /\ data req <> []
    /\ LSTM_predictions r1
       = map (fun p => mkPoint (value p) (date p))
           (filter (fun p => (p_pair p =? pair_id cpr)
                             && (p_period p =? period_id per)
                             && (p_model p =? model_id lm))
                   (predictions (db w1)))
    /\ LSTM_sentiment_predictions r1
       = map (fun p => mkPoint (value p) (date p))
           (filter (fun p => (p_pair p =? pair_id cpr)
                             && (p_period p =? period_id per)
                             && (p_model p =? model_id sm))
                   (predictions (db w1)))
    /\ (w1 = after_check w
        \/ ticks w1 = (ticks w + 6)%nat
           /\ exists evs,
                calls w1
                = (calls w ++ LoadModelAndScaler (upper cpn) (lower pn)
                     :: GetMultiplePredictions None :: evs)%list).
Proof.
  intros H.
  destruct (predict_ok_inv E cpn pn req w w1 r1 H)
    as (cpr & per & lm & sm & bar & Hc & Hp & Hl & Hs & Hb
        & [Hf | (Hf & art & sq & Hart & Hsq & Hn & Hm)]);
    exists cpr, per, lm, sm; repeat (split; [ assumption | ]);
    (split; [ intros Hd; rewrite Hd in Hb; discriminate Hb | ]).
  - rewrite (predict_fresh E cpn pn req w cpr per lm bar Hc Hp Hl Hb Hf) in H.
    rewrite Hs in H. unfold except_clauses in H. rewrite respond_ok in H.
    pose proof (f_equal snd H) as Hw. pose proof (f_equal fst H) as Hr.
    cbn [fst snd] in Hw, Hr. subst w1. injection Hr as <-.
    split; [ reflexivity | ]. split; [ reflexivity | now left ].
  - rewrite (predict_recomputed E cpn pn req w cpr per lm sm bar art sq
               Hc Hp Hl Hs Hb Hf Hart Hsq Hn Hm) in H.
    pose proof (f_equal snd H) as Hw. pose proof (f_equal fst H) as Hr.
    cbn [fst snd] in Hw, Hr. rewrite <- Hw. cbn [db ticks calls].
    injection Hr as <-.
    split; [ reflexivity | ]. split; [ reflexivity | ].
    right. split; [ lia | eauto ].
Qed.

Lemma predict_response_is_the_stored_series_witness :
  exists cpr per lm sm,
    get_currency_pair (db Sample.start) (upper "eurusd") = Some cpr
    /\ get_period (db Sample.start) (lower "h1") = Some per
    /\ get_prediction_model (db Sample.start) "LSTM" = Some lm
    /\ get_prediction_model (db Sample.start) "LSTM_Sentiment" = Some sm
    /\ data Sample.request <> []
    /\ series (db Sample.after_first) 1 2 1
       = map (fun p => mkPoint (value p) (date p))
           (filter (fun p => (p_pair p =? pair_id cpr)
                             && (p_period p =? period_id per)
                             && (p_model p =? model_id lm))
                   (predictions (db Sample.after_first)))
    /\ series (db Sample.after_first) 1 2 2
       = map (fun p => mkPoint (value p) (date p))
           (filter (fun p => (p_pair p =? pair_id cpr)
                             && (p_period p =? period_id per)
                             && (p_model p =? model_id sm))
                   (predictions (db Sample.after_first)))
    /\ (Sample.after_first = after_check Sample.start
        \/ ticks Sample.after_first = (ticks Sample.start + 6)%nat
           /\ exists evs,
                calls Sample.after_first
                = (calls Sample.start
                   ++ LoadModelAndScaler (upper "eurusd") (lower "h1")
                   :: GetMultiplePredictions None :: evs)%list).
Proof.
  apply (predict_response_is_the_stored_series Sample.env "eurusd" "h1"
           Sample.request Sample.start Sample.after_first
           (mkResponse (series (db Sample.after_first) 1 2 1)
                       (series (db Sample.after_first) 1 2 2))).
  vm_compute. reflexivity.
Defined.

(** X13: on the recompute branch, when the artifact is found and the
    sequences are built but a rollout has fewer than 5 values, the request
    is answered 500. *)
Theorem short_rollout_is_500 (E : Env) (cpn pn : string)
    (req : PredictionRequest) (w : world) (cpr : CurrencyPair) (per : Period)
    (lm : PredictionModel) (bar : OHLCData) (art : Artifact E)
    (sq : Sequences E) :
  get_currency_pair (db w) (upper cpn) = Some cpr ->
  get_period (db w) (lower pn) = Some per ->
  get_prediction_model (db w) "LSTM" = Some lm ->
  hd_error (rev (data req)) = Some bar ->
  cache_is_fresh
    (get_n_future_predictions (db w) (pair_id cpr) (period_id per)
       (model_id lm)
       (match_date_to_period (clock E (ticks w)) (lower pn) 0) 5)
    5 (Close bar) = false ->
  load_model_and_scaler E (upper cpn) (lower pn) = Some art ->
  preprocess E (data req) art = inr sq ->
  (List.length (get_multiple_predictions E sq art None) < 5)%nat
  \/ (List.length
        match sentimentScore req with
        | Some x => get_multiple_predictions E sq art (Some x)
        | None => get_multiple_predictions E sq art None
        end < 5)%nat ->
  fst (predict E cpn pn req w) = inl (HTTPException 500).
Proof.
  intros Hc Hp Hl Hb Hf Hart Hsq Hshort.
  destruct (predict E cpn pn req w) as [[e | r1] w1] eqn:Hrun; cbn [fst].
  - pose proof (f_equal fst Hrun) as He. cbn [fst] in He.
    unfold predict in He.
    apply except_clauses_status in He as [[-> _] | [-> _]];
      [ exfalso | reflexivity ].
    pose proof (f_equal fst Hrun) as H404. cbn [fst] in H404.
    destruct (predict_404_inv E cpn pn req w H404)
      as (_ & _ & _ & _ & _ & _ & _ & _ & _
          & [Hnone | (art' & Hart' & Hpre)]).
    + congruence.
    + rewrite Hart in Hart'. injection Hart' as <-. congruence.
  - exfalso.
    destruct (predict_ok_inv E cpn pn req w w1 r1 Hrun)
      as (cpr' & per' & lm' & sm & bar' & Hc' & Hp' & Hl' & _ & Hb'
          & [Hf' | (_ & art' & sq' & Hart' & Hsq' & Hn & Hm)]).
    + rewrite Hc in Hc'. rewrite Hp in Hp'. rewrite Hl in Hl'.
      rewrite Hb in Hb'. injection Hc' as <-. injection Hp' as <-.
      injection Hl' as <-. injection Hb' as <-. congruence.
    + rewrite Hart in Hart'. injection Hart' as <-.
      rewrite Hsq in Hsq'. injection Hsq' as <-. lia.
Qed.

Lemma short_rollout_is_500_witness :
  fst (predict Edge.short_env "eurusd" "h1" Sample.request Sample.start)
  = inl (HTTPException 500).
Proof.
  refine (short_rollout_is_500 Edge.short_env "eurusd" "h1" Sample.request
            Sample.start (mkPair 1 "EURUSD") (mkPeriod 2 "h1")
            (mkModel 1 "LSTM") (Sample.bar (Sample.fl 5 (-2))) tt tt
            _ _ _ _ _ _ _ _); try reflexivity.
  left. vm_compute. lia.
Defined.

(** ** The symbol endpoints *)
Section SymbolFacts.

Import Symbols.

Lemma get_currency_pair_none (d : DB) (name : string) :
  get_currency_pair d name = None <-> ~ In name (map pair_name (currency_pairs d)).
Proof.
  unfold get_currency_pair. split.
  - intros Hn Hin. apply in_map_iff in Hin as (c & Hc & Hin).
    pose proof (find_none _ _ Hn c Hin) as H. cbn in H.
    rewrite Hc, String.eqb_refl in H. discriminate.
  - intros Hn.
    destruct (find (fun c => String.eqb (pair_name c) name) (currency_pairs d))
      as [c |] eqn:Hf; [ | reflexivity ].
    exfalso. apply Hn. apply find_some in Hf as [Hin Hc].
    apply String.eqb_eq in Hc. apply in_map_iff. eauto.
Qed.

Lemma find_pair_app (name : string) (l : list CurrencyPair) (c : CurrencyPair) :
  find (fun x => String.eqb (pair_name x) name) (l ++ [c])
  = match find (fun x => String.eqb (pair_name x) name) l with
    | Some x => Some x
    | None => if String.eqb (pair_name c) name then Some c else None
    end.
Proof.
  induction l as [| y l IH]; cbn; [ reflexivity | ].
  now destruct (String.eqb (pair_name y) name).
Qed.

Lemma max_id_bound (l : list Z) (x : Z) :
  In x l -> x <= fold_right Z.max 0 l.
Proof.
  induction l as [| y l IH]; cbn; [ tauto | ].
  intros [-> | H]; [ lia | ]. specialize (IH H). lia.
Qed.

(** The id of a new pair is the id of no stored pair. *)
Lemma next_pair_id_fresh (d : DB) :
  ~ In (next_pair_id d) (map pair_id (currency_pairs d)).
Proof.
  intros H. apply max_id_bound in H. unfold next_pair_id in H. lia.
Qed.

(** The links the loop adds: one for every requested period that is
    stored, in the order of the request. *)
Lemma attach_periods_spec (d : DB) (new_pair : CurrencyPair)
    (requested : list string) :
  forall links,
    attach_periods d new_pair requested links
    = (links
       ++ map (fun p => (pair_id new_pair, period_id p))
            (flat_map (fun n => match get_period d n with
                                | Some p => [p]
                                | None => []
                                end) requested))%list.
Proof.
  induction requested as [| n rest IH]; intros links; cbn.
  - now rewrite app_nil_r.
  - destruct (get_period d n) as [p |]; rewrite IH; cbn.
    + now rewrite <- app_assoc.
    + reflexivity.
Qed.

(** A payload whose symbol is new and not empty has its pair committed,
    with the requested periods that are stored; it is answered with the
    message unless its "periods" cannot be iterated, which is a 500. *)
Lemma add_currency_pair_new (payload : SymbolPayload) (r : registry)
    (name : string) :
  symbol payload = Some name -> name <> "" ->
  get_currency_pair (reg_db r) name = None ->
  snd (add_currency_pair payload r)
  = mkRegistry (snd (commit_pair (reg_db r) name))
      (attach_periods (snd (commit_pair (reg_db r) name))
         (fst (commit_pair (reg_db r) name))
         (requested_periods (periods payload)) (pair_periods r))
  /\ fst (add_currency_pair_body payload r)
     = match periods payload with
       | periods_not_iterable => inl TypeError
       | _ => inr added_message
       end
  /\ fst (add_currency_pair payload r)
     = match periods payload with
       | periods_not_iterable => inl (HTTPException 500)
       | _ => inr added_message
       end.
Proof.
  intros Hs Hne Hnew. unfold add_currency_pair, add_currency_pair_body.
  rewrite Hs. apply String.eqb_neq in Hne. rewrite Hne, Hnew.
  destruct (periods payload); cbn; auto.
Qed.

Lemma add_currency_pair_rejected (payload : SymbolPayload) (r : registry) :
  symbol payload = None \/ symbol payload = Some ""
  \/ (exists name p, symbol payload = Some name
                     /\ get_currency_pair (reg_db r) name = Some p) ->
  add_currency_pair_body payload r = (inl (HTTPException 400), r).
Proof.
  unfold add_currency_pair_body.
  intros [-> | [-> | (name & p & -> & Hp)]]; try reflexivity.
  rewrite Hp. now destruct (String.eqb name "").
Qed.

(** Every payload is either rejected before anything is stored, or names
    a new, non-empty symbol. *)
Lemma add_currency_pair_cases (payload : SymbolPayload) (r : registry) :
  (symbol payload = None \/ symbol payload = Some ""
   \/ (exists name p, symbol payload = Some name
                      /\ get_currency_pair (reg_db r) name = Some p))
  \/ exists name,
       symbol payload = Some name /\ name <> ""
       /\ get_currency_pair (reg_db r) name = None.
Proof.
  destruct (symbol payload) as [name |]; [ | auto ].
  destruct (String.eqb_spec name "") as [-> | Hne]; [ auto | ].
  destruct (get_currency_pair (reg_db r) name) as [p |] eqn:Hg.
  - left. right. right. eauto.
  - right. eauto.
Qed.

Lemma committed_pair_is_found (d : DB) (name : string) :
  get_currency_pair d name = None ->
  get_currency_pair (snd (commit_pair d name)) name
  = Some (mkPair (next_pair_id d) name).
Proof.
  intros Hnew. unfold get_currency_pair in *.
  cbn [snd commit_pair currency_pairs].
  rewrite find_pair_app, Hnew. cbn [pair_name]. now rewrite String.eqb_refl.
Qed.

End SymbolFacts.

Lemma upper_ascii_idempotent (a : ascii) :
  upper_ascii (upper_ascii a) = upper_ascii a.
Proof. destruct a as [[] [] [] [] [] [] [] []]; reflexivity. Qed.

Lemma upper_idempotent (s : string) : upper (upper s) = upper s.
Proof.
  induction s as [| a s IH]; cbn; [ reflexivity | ].
  now rewrite upper_ascii_idempotent, IH.
Qed.

Lemma predict_unknown_pair (E : Env) (cpn pn : string)
    (req : PredictionRequest) (w : world) :
  get_currency_pair (db w) (upper cpn) = None ->
  predict E cpn pn req w = (inl (HTTPException 500), w).
Proof.
  intros H. unfold predict, except_clauses, predict_body. run.
  rewrite H. now destruct w.
Qed.

Section SymbolProperties.

Import Symbols.

Variables (payload : SymbolPayload) (r : registry).

(** A successful call took the accepting path: its symbol is a new,
    non-empty name and its periods can be iterated. *)
Lemma add_currency_pair_ok_inv (m : string) :
  fst (add_currency_pair payload r) = inr m ->
  exists name,
    symbol payload = Some name /\ name <> ""
    /\ get_currency_pair (reg_db r) name = None
    /\ periods payload <> periods_not_iterable.
Proof.
  intros Hm.
  destruct (add_currency_pair_cases payload r)
    as [Hbad | (name & Hs & Hne & Hnew)].
  - exfalso. unfold add_currency_pair in Hm.
    rewrite (add_currency_pair_rejected payload r Hbad) in Hm. discriminate.
  - exists name. repeat split; try assumption.
    destruct (add_currency_pair_new payload r name Hs Hne Hnew)
      as (_ & _ & Hfst).
    intros Hp. rewrite Hp, Hm in Hfst. discriminate.
Qed.

(** X14: a payload without a symbol, with an empty symbol or with the
    symbol of a stored pair raises the 400 inside the [try] block, which
    the [except] clause turns into a 500; nothing is stored.  A new,
    non-empty symbol whose "periods" cannot be iterated is answered 500 as
    well, by the [TypeError] of the loop, but after the pair was committed:
    the pair is stored, with no period attached.  Every other payload is
    accepted. *)
Theorem add_currency_pair_rejects_as_500 :
  let invalid :=
    symbol payload = None \/ symbol payload = Some ""
    \/ (exists name p, symbol payload = Some name
                       /\ get_currency_pair (reg_db r) name = Some p) in
  (invalid ->
     add_currency_pair_body payload r = (inl (HTTPException 400), r)
     /\ add_currency_pair payload r = (inl (HTTPException 500), r))
  /\ (~ invalid -> periods payload = periods_not_iterable ->
      fst (add_currency_pair_body payload r) = inl TypeError
      /\ fst (add_currency_pair payload r) = inl (HTTPException 500)
      /\ pair_periods (snd (add_currency_pair payload r)) = pair_periods r
      /\ exists name,
           symbol payload = Some name
           /\ get_currency_pair (reg_db r) name = None
           /\ get_currency_pair (reg_db (snd (add_currency_pair payload r)))
                name
              = Some (mkPair (next_pair_id (reg_db r)) name))
  /\ (~ invalid -> periods payload <> periods_not_iterable ->
      fst (add_currency_pair payload r) = inr added_message).
Proof.
  intros invalid. split; [ | split ].
  - intros H. pose proof (add_currency_pair_rejected payload r H) as Hb.
    split; [ exact Hb | ]. unfold add_currency_pair. now rewrite Hb.
  - intros Hv Hp.
    destruct (add_currency_pair_cases payload r)
      as [Hbad | (name & Hs & Hne & Hnew)]; [ contradiction | ].
    destruct (add_currency_pair_new payload r name Hs Hne Hnew)
      as (Hsnd & Hbody & Hfst).
    rewrite Hp in Hbody, Hfst, Hsnd. rewrite Hsnd.
    cbn [pair_periods reg_db requested_periods attach_periods].
    repeat split; try assumption.
    exists name. repeat split; try assumption.
    now apply committed_pair_is_found.
  - intros Hv Hp.
    destruct (add_currency_pair_cases payload r)
      as [Hbad | (name & Hs & Hne & Hnew)]; [ contradiction | ].
    destruct (add_currency_pair_new payload r name Hs Hne Hnew)
      as (_ & _ & Hfst).
    rewrite Hfst. now destruct (periods payload).
Qed.

(** X15: after a new symbol is added, the pair is found under exactly
    that name, with an id no stored pair had; every other name is looked up
    as before; the listing of [get_currency_pairs] is the former listing
    followed by the new name; periods, models and predictions are
    untouched. *)
Theorem added_pair_is_found (name : string) :
  symbol payload = Some name -> name <> "" ->
  get_currency_pair (reg_db r) name = None ->
  let after := snd (add_currency_pair payload r) in
  let new_pair := mkPair (next_pair_id (reg_db r)) name in
  (periods payload <> periods_not_iterable ->
   fst (add_currency_pair payload r) = inr added_message)
  /\ get_currency_pair (reg_db after) name = Some new_pair
  /\ ~ In (pair_id new_pair) (map pair_id (currency_pairs (reg_db r)))
  /\ (forall other, other <> name ->
        get_currency_pair (reg_db after) other
        = get_currency_pair (reg_db r) other)
  /\ get_currency_pairs after
     = inr (map pair_name (currency_pairs (reg_db r)) ++ [name])%list
  /\ Storage.periods (reg_db after) = Storage.periods (reg_db r)
  /\ prediction_models (reg_db after) = prediction_models (reg_db r)
  /\ predictions (reg_db after) = predictions (reg_db r).
Proof.
  intros Hs Hne Hnew after new_pair. subst after.
  destruct (add_currency_pair_new payload r name Hs Hne Hnew)
    as (Hsnd & _ & Hfst).
  rewrite Hsnd. cbn [reg_db]. split.
  - intros Hp. rewrite Hfst. now destruct (periods payload).
  - split; [ now apply committed_pair_is_found | ].
    cbn [snd commit_pair]. fold new_pair.
    split; [ apply next_pair_id_fresh | ]. split.
    + intros other Ho. unfold get_currency_pair. cbn [currency_pairs].
      rewrite find_pair_app. cbn [pair_name new_pair].
      apply not_eq_sym, String.eqb_neq in Ho. rewrite Ho.
      now destruct (find (fun c => String.eqb (pair_name c) other)
                      (currency_pairs (reg_db r))).
    + split; [ | auto ].
      unfold get_currency_pairs, get_all_currency_pairs.
      cbn [reg_db currency_pairs]. now rewrite map_app.
Qed.

(** X16: the periods attached to a new pair are the requested periods that
    are stored, in the order of the request; a requested name that is not a
    stored period is passed over without an error, and the links of the
    other pairs are kept. *)
Theorem added_pair_gets_the_stored_periods (name : string) :
  symbol payload = Some name -> name <> "" ->
  get_currency_pair (reg_db r) name = None ->
  let after := snd (add_currency_pair payload r) in
  let requested := requested_periods (periods payload) in
  let found :=
    flat_map (fun n => match get_period (reg_db r) n with
                       | Some p => [p]
                       | None => []
                       end) requested in
  pair_periods after
  = (pair_periods r
     ++ map (fun p => (next_pair_id (reg_db r), period_id p)) found)%list
  /\ periods_of after (next_pair_id (reg_db r))
     = (periods_of r (next_pair_id (reg_db r)) ++ map period_id found)%list
  /\ (forall other, other <> next_pair_id (reg_db r) ->
        periods_of after other = periods_of r other).
Proof.
  intros Hs Hne Hnew after requested found. subst after.
  destruct (add_currency_pair_new payload r name Hs Hne Hnew)
    as (Hsnd & _ & _).
  rewrite Hsnd.
  cbn [fst snd pair_periods commit_pair]. rewrite attach_periods_spec.
  cbn [pair_id]. fold requested.
  change (flat_map _ requested) with found.
  split; [ reflexivity | ].
  unfold periods_of; cbn [pair_periods].
  split.
  - rewrite filter_app, map_app. f_equal.
    induction found as [| p l IH]; cbn [map filter fst snd];
      [ reflexivity | ].
    rewrite Z.eqb_refl. cbn [map snd]. now rewrite <- IH.
  - intros other Ho. rewrite filter_app, map_app.
    rewrite <- (app_nil_r (map snd (filter _ (pair_periods r)))) at 2.
    f_equal. apply not_eq_sym, Z.eqb_neq in Ho.
    induction found as [| p l IH]; cbn [map filter fst snd];
      [ reflexivity | ].
    now rewrite Ho.
Qed.

(** X17: whatever its outcome, [add_currency_pair] keeps the names and the
    ids of the stored pairs unique. *)
Theorem add_currency_pair_keeps_pairs_unique :
  NoDup (map pair_name (currency_pairs (reg_db r))) ->
  NoDup (map pair_id (currency_pairs (reg_db r))) ->
  NoDup (map pair_name
           (currency_pairs (reg_db (snd (add_currency_pair payload r)))))
  /\ NoDup (map pair_id
              (currency_pairs (reg_db (snd (add_currency_pair payload r))))).
Proof.
  intros Hn Hi.
  destruct (add_currency_pair_cases payload r)
    as [Hbad | (name & Hs & Hne & Hnew)].
  - unfold add_currency_pair.
    rewrite (add_currency_pair_rejected payload r Hbad). cbn [snd]. auto.
  - destruct (add_currency_pair_new payload r name Hs Hne Hnew)
      as (Hsnd & _ & _).
    rewrite Hsnd. cbn [snd reg_db commit_pair currency_pairs].
    rewrite !map_app. cbn [map pair_name pair_id]. split.
    + apply NoDup_app; [ exact Hn | repeat constructor; intros [] | ].
      intros x Hx [<- | []].
      now apply (proj1 (get_currency_pair_none (reg_db r) name) Hnew).
    + apply NoDup_app; [ exact Hi | repeat constructor; intros [] | ].
      intros x Hx [<- | []]. now apply (next_pair_id_fresh (reg_db r)).
Qed.

(** X18: the same payload is not accepted twice: after a successful call a
    second call with the same payload is answered 500 and stores
    nothing. *)
Theorem add_currency_pair_twice_is_rejected (m : string) :
  fst (add_currency_pair payload r) = inr m ->
  add_currency_pair payload (snd (add_currency_pair payload r))
  = (inl (HTTPException 500), snd (add_currency_pair payload r)).
Proof.
  intros Hm.
  destruct (add_currency_pair_ok_inv m Hm) as (name & Hs & Hne & Hnew & _).
  set (after := snd (add_currency_pair payload r)).
  assert (Hfound : get_currency_pair (reg_db after) name
                   = Some (mkPair (next_pair_id (reg_db r)) name)).
  { subst after.
    destruct (add_currency_pair_new payload r name Hs Hne Hnew)
      as (Hsnd & _ & _).
    rewrite Hsnd. cbn [reg_db]. now apply committed_pair_is_found. }
  unfold add_currency_pair.
  rewrite (add_currency_pair_rejected payload after); [ reflexivity | ].
  right. right. eauto.
Qed.

(** X19: [add_currency_pair] stores the symbol as it is written, [predict]
    looks pairs up by their uppercased name.  A pair added under a name
    that is not all uppercase, when no pair is stored under the uppercased
    name, is found by no request: every spelling of it is answered 500. *)
Theorem lowercase_symbol_is_unreachable (name m : string) (E : Env)
    (cpn pn : string) (req : PredictionRequest) (w : world) :
  symbol payload = Some name ->
  upper name <> name ->
  get_currency_pair (reg_db r) (upper name) = None ->
  fst (add_currency_pair payload r) = inr m ->
  db w = reg_db (snd (add_currency_pair payload r)) ->
  upper cpn = upper name ->
  predict E cpn pn req w = (inl (HTTPException 500), w).
Proof.
  intros Hs Hup Hnone Hm Hdb Hcpn.
  destruct (add_currency_pair_ok_inv m Hm)
    as (name' & Hs' & Hne & Hnew & _).
  rewrite Hs in Hs'. injection Hs' as <-.
  apply predict_unknown_pair. rewrite Hdb, Hcpn.
  destruct (add_currency_pair_new payload r name Hs Hne Hnew)
    as (Hsnd & _ & _).
  rewrite Hsnd.
  cbn [snd reg_db commit_pair]. unfold get_currency_pair in *.
  cbn [currency_pairs]. rewrite find_pair_app, Hnone. cbn [pair_name].
  apply not_eq_sym, String.eqb_neq in Hup. now rewrite Hup.
Qed.

End SymbolProperties.

Lemma add_currency_pair_rejects_as_500_witness :
  Symbols.add_currency_pair Edge.payload_stored Edge.registry0
  = (inl (HTTPException 500), Edge.registry0)
  /\ fst (Symbols.add_currency_pair Edge.payload_null_periods Edge.registry0)
     = inl (HTTPException 500).
Proof.
  split.
  - refine (proj2 (proj1 (add_currency_pair_rejects_as_500
                            Edge.payload_stored Edge.registry0) _)).
    right. right. exists "EURUSD", (mkPair 1 "EURUSD"). split; reflexivity.
  - refine (proj1 (proj2 (proj1 (proj2 (add_currency_pair_rejects_as_500
                            Edge.payload_null_periods Edge.registry0))
                            _ _))).
    + intros [H | [H | (name & p & Hs & Hp)]]; try discriminate H.
      injection Hs as <-. discriminate Hp.
    + reflexivity.
Defined.

Lemma added_pair_is_found_witness :
  get_currency_pair
    (Symbols.reg_db
       (snd (Symbols.add_currency_pair Edge.payload_usdjpy Edge.registry0)))
    "usdjpy"
  = Some (mkPair 3 "usdjpy").
Proof.
  refine (proj1 (proj2 (added_pair_is_found Edge.payload_usdjpy
                          Edge.registry0 "usdjpy" _ _ _))).
  - reflexivity.
  - discriminate.
  - reflexivity.
Defined.

Lemma added_pair_gets_the_stored_periods_witness :
  Symbols.periods_of
    (snd (Symbols.add_currency_pair Edge.payload_usdjpy Edge.registry0)) 3
  = [2; 1].
Proof.
  refine (proj1 (proj2 (added_pair_gets_the_stored_periods
                          Edge.payload_usdjpy Edge.registry0 "usdjpy"
                          _ _ _))).
  - reflexivity.
  - discriminate.
  - reflexivity.
Defined.

Lemma add_currency_pair_keeps_pairs_unique_witness :
  NoDup (map pair_name
           (currency_pairs
              (Symbols.reg_db
                 (snd (Symbols.add_currency_pair Edge.payload_usdjpy
                         Edge.registry0))))).
Proof.
  refine (proj1 (add_currency_pair_keeps_pairs_unique Edge.payload_usdjpy
                   Edge.registry0 _ _)).
  - cbn. repeat constructor; cbn; intuition discriminate.
  - cbn. repeat constructor; cbn; intuition discriminate.
Defined.

Lemma add_currency_pair_twice_is_rejected_witness :
  Symbols.add_currency_pair Edge.payload_usdjpy
    (snd (Symbols.add_currency_pair Edge.payload_usdjpy Edge.registry0))
  = (inl (HTTPException 500),
     snd (Symbols.add_currency_pair Edge.payload_usdjpy Edge.registry0)).
Proof.
  apply (add_currency_pair_twice_is_rejected Edge.payload_usdjpy
           Edge.registry0 Symbols.added_message).
  reflexivity.
Defined.

Lemma lowercase_symbol_is_unreachable_witness :
  predict Sample.env "usdjpy" "h1" Sample.request
    (mkWorld
       (Symbols.reg_db
          (snd (Symbols.add_currency_pair Edge.payload_usdjpy Edge.registry0)))
       0 [])
  = (inl (HTTPException 500),
     mkWorld
       (Symbols.reg_db
          (snd (Symbols.add_currency_pair Edge.payload_usdjpy Edge.registry0)))
       0 []).
Proof.
  apply (lowercase_symbol_is_unreachable Edge.payload_usdjpy Edge.registry0
           "usdjpy" Symbols.added_message Sample.env "usdjpy" "h1"
           Sample.request).
  - reflexivity.
  - discriminate.
  - reflexivity.
  - reflexivity.
  - reflexivity.
  - reflexivity.
Defined.

(** ** What the cache check looks at *)

Lemma float_eqb_nan_r (x c : float) : is_nan c = true -> float_eqb x c = false.
Proof.
  destruct c; cbn; intros H; try discriminate.
  unfold float_eqb, SFeqb, SFcompare. now destruct x.
Qed.

(** X20: a request that is served from the cache depends on its body only
    through the Close of its last bar: the earlier bars and the sentiment
    score are not looked at, so any request with the same last Close gets
    the same outcome. *)
Theorem cached_outcome_depends_on_last_close_only (E : Env) (cpn pn : string)
    (req req' : PredictionRequest) (w : world) (cpr : CurrencyPair)
    (per : Period) (lm : PredictionModel) (bar bar' : OHLCData) :
  get_currency_pair (db w) (upper cpn) = Some cpr ->
  get_period (db w) (lower pn) = Some per ->
  get_prediction_model (db w) "LSTM" = Some lm ->
  hd_error (rev (data req)) = Some bar ->
  hd_error (rev (data req')) = Some bar' ->
  Close bar' = Close bar ->
  cache_is_fresh
    (get_n_future_predictions (db w) (pair_id cpr) (period_id per)
       (model_id lm)
       (match_date_to_period (clock E (ticks w)) (lower pn) 0) 5)
    5 (Close bar) = true ->
  predict E cpn pn req' w = predict E cpn pn req w.
Proof.
  intros Hc Hp Hl Hb Hb' Hclose Hf.
  rewrite (predict_fresh E cpn pn req w cpr per lm bar Hc Hp Hl Hb Hf).
  rewrite <- Hclose in Hf.
  now rewrite (predict_fresh E cpn pn req' w cpr per lm bar' Hc Hp Hl Hb' Hf).
Qed.

Lemma cached_outcome_depends_on_last_close_only_witness :
  predict Sample.env "eurusd" "h1"
    (mkRequest [Sample.bar (Sample.fl 5 (-2))] (Some (Sample.fl 1 (-1))))
    Sample.after_first
  = predict Sample.env "eurusd" "h1" Sample.request Sample.after_first.
Proof.
  refine (cached_outcome_depends_on_last_close_only Sample.env "eurusd" "h1"
            Sample.request
            (mkRequest [Sample.bar (Sample.fl 5 (-2))]
               (Some (Sample.fl 1 (-1))))
            Sample.after_first (mkPair 1 "EURUSD") (mkPeriod 2 "h1")
            (mkModel 1 "LSTM") (Sample.bar (Sample.fl 5 (-2)))
            (Sample.bar (Sample.fl 5 (-2))) _ _ _ _ _ _ _);
    vm_compute; reflexivity.
Defined.

(** X21: a request whose last Close is NaN is never served from the cache:
    NaN equals no stored anchor, so the recompute branch runs and asks for
    the artifact, whatever is stored. *)
Theorem nan_close_always_recomputes (E : Env) (cpn pn : string)
    (req : PredictionRequest) (w : world) (cpr : CurrencyPair) (per : Period)
    (lm : PredictionModel) (bar : OHLCData) :
  get_currency_pair (db w) (upper cpn) = Some cpr ->
  get_period (db w) (lower pn) = Some per ->
  get_prediction_model (db w) "LSTM" = Some lm ->
  hd_error (rev (data req)) = Some bar ->
  is_nan (Close bar) = true ->
  exists evs,
    calls (snd (predict E cpn pn req w))
    = (calls w ++ LoadModelAndScaler (upper cpn) (lower pn) :: evs)%list.
Proof.
  intros Hc Hp Hl Hb Hnan.
  assert (Hf : cache_is_fresh
            (get_n_future_predictions (db w) (pair_id cpr) (period_id per)
               (model_id lm)
               (match_date_to_period (clock E (ticks w)) (lower pn) 0) 5)
            5 (Close bar) = false).
  { unfold cache_is_fresh.
    destruct (get_n_future_predictions (db w) (pair_id cpr) (period_id per)
                (model_id lm)
                (match_date_to_period (clock E (ticks w)) (lower pn) 0) 5)
      as [| r0 rest]; [ apply andb_false_r | ].
    rewrite (float_eqb_nan_r _ _ Hnan). apply andb_false_r. }
  rewrite (predict_stale E cpn pn req w cpr per lm bar Hc Hp Hl Hb Hf).
  rewrite except_clauses_world, then_respond_world.
  change (calls w) with (calls (after_check w)).
  apply recompute_calls.
Qed.

Lemma nan_close_always_recomputes_witness :
  exists evs,
    calls (snd (predict Sample.env "eurusd" "h1" Sample.request_nan
                  Sample.after_first))
    = (calls Sample.after_first
       ++ LoadModelAndScaler (upper "eurusd") (lower "h1") :: evs)%list.
Proof.
  refine (nan_close_always_recomputes Sample.env "eurusd" "h1"
            Sample.request_nan Sample.after_first (mkPair 1 "EURUSD")
            (mkPeriod 2 "h1") (mkModel 1 "LSTM") (Sample.bar S754_nan)
            _ _ _ _ _); reflexivity.
Defined.
